(** * ContainerRuntime reconciler

    A shallow embedding of
    [extensions/pkg/controller/containerruntime/reconciler.go]
    (vendored from gardener/gardener) and the properties of its lifecycle
    state machine.

    The reconciler is stateful Go code: it reads and writes a resource store
    through a client, calls a pluggable actuator and an ownership watchdog,
    and registers a deferred cleanup.  It is embedded as a state monad over
    an explicit [State] (the store and the chronological trace of calls to
    the collaborators), with a separate outcome for a Go panic so that
    [defer] can be given its meaning on every exit path. *)

From stdpp Require Import gmap strings list.

(** ** Data model *)

(** [type LastOperationType string] in the gardener API. *)
Definition LastOperationType := string.

(** Modelled from the spec: the declaration of the last-operation states is
    not among the sources; section 3 of the spec lists
    Processing, Succeeded and Error. *)
Inductive LastOperationState :=
  | LastOperationStateProcessing
  | LastOperationStateSucceeded
  | LastOperationStateError.

Record LastOperation := mkLastOperation {
  lo_Type : LastOperationType;
  lo_State : LastOperationState;
  lo_Description : string
}.

(** The part of [metav1.ObjectMeta] the reconciler looks at. *)
Record ObjectMeta := mkObjectMeta {
  Namespace : string;
  Name : string;
  Finalizers : list string;
  Annotations : gmap string string;
  DeletionTimestamp : option Z
}.

Record ContainerRuntimeStatus := mkStatus {
  LastOperation_ : option LastOperation
}.

(** [extensionsv1alpha1.ContainerRuntime]; the desired-state spec is opaque
    to the reconciler. *)
Record ContainerRuntime := mkContainerRuntime {
  Meta : ObjectMeta;
  Spec : string;
  Status : ContainerRuntimeStatus
}.

(** [types.NamespacedName], the key of an object in the store. *)
Definition NamespacedName : Type := string * string.

Definition key_of (cr : ContainerRuntime) : NamespacedName :=
  (Namespace (Meta cr), Name (Meta cr)).

Record Shoot := mkShoot {
  ShootNamespace : string;
  ShootName : string;
  ShootStatus : string
}.

(** [extensionscontroller.Cluster]; only the [Shoot] pointer is inspected by
    the reconciler itself. *)
Record Cluster := mkCluster {
  Shoot_ : option Shoot
}.

(** Go [error] values.  [errorString] is what [fmt.Errorf] and [errors.New]
    build; [StatusError] is an API status error of the resource store,
    carrying its reason. *)
Inductive error :=
  | errorString (msg : string)
  | StatusError (reason : string) (msg : string).

(** [err.Error()], which is also what the verb [%+v] prints for these two
    kinds of error. *)
Definition Error (e : error) : string :=
  match e with
  | errorString msg => msg
  | StatusError _ msg => msg
  end.

(** [fmt.Errorf(prefix + "%+v", err)] and [fmt.Errorf(prefix + "%s", s)]. *)
Definition Errorf_v (prefix : string) (err : error) : error :=
  errorString (prefix +:+ Error err).

Definition Errorf_s (prefix : string) (s : string) : error :=
  errorString (prefix +:+ s).

(** [reconcile.Result]. *)
Record Result := mkResult {
  Requeue : bool;
  RequeueAfter : Z
}.

(** [reconcile.Result{}] *)
Definition Result0 : Result := mkResult false 0.

(** A [context.Context] and a [context.CancelFunc] are opaque handles. *)
Definition Context := nat.
Definition CancelFunc := nat.

(** ** Collaborators *)

(** What a call into pluggable code does: it returns its [error] (nil or
    not), or it panics. *)
Inductive Outcome :=
  | Returns (err : option error)
  | Panics.

(** The [Actuator] interface: four methods, implemented by the caller. *)
Module Actuator.
Record t := mk {
  Reconcile : Context -> ContainerRuntime -> Cluster -> Outcome;
  Restore : Context -> ContainerRuntime -> Cluster -> Outcome;
  Delete : Context -> ContainerRuntime -> Cluster -> Outcome;
  Migrate : Context -> ContainerRuntime -> Cluster -> Outcome
}.
End Actuator.

(** The helper through which a write reaches the resource store. *)
Inductive WriteOp :=
  | OpEnsureFinalizer
  | OpRemoveFinalizer
  | OpDeleteAllFinalizers
  | OpRemoveAnnotation
  | OpProcessing
  | OpSuccess
  | OpError (cause : error).

(** The resource store's client.  Whether a read or a write fails is outside
    the reconciler's control: the client decides it from the request. *)
Module Client.
Record t := mk {
  get_fault : NamespacedName -> option error;
  write_fault : WriteOp -> ContainerRuntime -> option error
}.
End Client.

(** The [reconciler] struct.  The logger only logs; the reader and the status
    updater go through the same client. *)
Record reconciler := mkReconciler {
  actuator : Actuator.t;
  client : Client.t
}.

(** The phase handlers of the reconciler. *)
Inductive Phase := PhaseReconcile | PhaseRestore | PhaseDelete | PhaseMigrate.

(** Calls that leave the reconciler, in the order they are made. *)
Inductive Event :=
  | EvWatchdog (namespace shootName key : string)
  | EvCleanup (cleanup : CancelFunc)
  | EvActuator (p : Phase) (ctx : Context) (cr : ContainerRuntime) (cluster : Cluster)
  | EvWrite (op : WriteOp) (cr : ContainerRuntime).

(** Constants and functions of other gardener packages that the reconciler
    uses and whose declarations are not among the sources.  They are taken as
    parameters: every theorem below holds for all their values. *)
Record Vendored := mkVendored {
  (* [FinalizerName], declared elsewhere in package containerruntime *)
  c_FinalizerName : string;
  (* [v1beta1constants.GardenerOperation] *)
  c_GardenerOperation : string;
  (* [gardencorev1beta1.LastOperationTypeMigrate] and its siblings *)
  c_LastOperationTypeMigrate : LastOperationType;
  c_LastOperationTypeRestore : LastOperationType;
  c_LastOperationTypeDelete : LastOperationType;
  (* [extensionscontroller.GetCluster], by namespace *)
  f_GetCluster : string -> error + Cluster;
  (* [extensionscontroller.IsFailed] *)
  f_IsFailed : Cluster -> bool;
  (* [gardencorev1beta1helper.ComputeOperationType] *)
  f_ComputeOperationType : ObjectMeta -> option LastOperation -> LastOperationType;
  (* [extensionscontroller.ShouldSkipOperation] *)
  f_ShouldSkipOperation : LastOperationType -> ContainerRuntime -> bool;
  (* [common.GetOwnerCheckResultAndContext]: context, namespace, shoot name, key *)
  f_GetOwnerCheckResultAndContext :
    Context -> string -> string -> string ->
    bool * Context * option CancelFunc * option error;
  (* [kutil.ObjectName], from namespace and name *)
  f_ObjectName : string -> string -> string;
  (* [extensionscontroller.ReconcileErr] and [ReconcileErrCauseOrErr] *)
  f_ReconcileErr : error -> Result * option error;
  f_ReconcileErrCauseOrErr : error -> error
}.

(** ** The monad *)

Record State := mkState {
  store : gmap NamespacedName ContainerRuntime;
  trace : list Event
}.

(** A Go function either returns a value or unwinds with a panic. *)
Inductive Res (A : Type) :=
  | Val (a : A)
  | Panic.
Arguments Val {A} a.
Arguments Panic {A}.

Definition M (A : Type) : Type := State -> Res A * State.

#[global] Instance M_ret : MRet M := fun A a s => (Val a, s).

#[global] Instance M_bind : MBind M := fun A B f m s =>
  match m s with
  | (Val a, s') => f a s'
  | (Panic, s') => (Panic, s')
  end.

Definition emit (ev : Event) : M unit :=
  fun s => (Val tt, mkState (store s) (trace s ++ [ev])).

(** [defer cleanup()] followed by the rest of the function: the deferred call
    runs when the rest has returned and also when it has panicked. *)
Definition defer {A} (cleanup : option CancelFunc) (rest : M A) : M A :=
  match cleanup with
  | None => rest
  | Some c => fun s =>
      let '(res, s') := rest s in
      (res, mkState (store s') (trace s' ++ [EvCleanup c]))
  end.

(** ** Helpers of the vendored packages

    These functions live in other packages of the vendored tree; their
    effect on the object is what the reconciler relies on.

    In Go the helpers change the object behind the pointer [cr] and report
    an [error]; here they return the error together with the changed object,
    which the caller binds to [cr] again.  The store takes the changed object
    only when the client accepts the write.  After a refused write every
    handler returns without reading its local copy again, so the copy that
    is threaded through never disagrees with the store where it is used. *)

Definition setFinalizers (fs : list string) (cr : ContainerRuntime) : ContainerRuntime :=
  let m := Meta cr in
  mkContainerRuntime
    (mkObjectMeta (Namespace m) (Name m) fs (Annotations m) (DeletionTimestamp m))
    (Spec cr) (Status cr).

Definition setAnnotations (a : gmap string string) (cr : ContainerRuntime) : ContainerRuntime :=
  let m := Meta cr in
  mkContainerRuntime
    (mkObjectMeta (Namespace m) (Name m) (Finalizers m) a (DeletionTimestamp m))
    (Spec cr) (Status cr).

Definition setLastOperation (lo : LastOperation) (cr : ContainerRuntime) : ContainerRuntime :=
  mkContainerRuntime (Meta cr) (Spec cr) (mkStatus (Some lo)).

(** Modelled from the spec: [errors.IsNotFound] of apimachinery is not among
    the sources; section 7 names NotFound as the error of an object that
    vanished between trigger and fetch. *)
Definition IsNotFound (err : error) : bool :=
  match err with
  | StatusError reason _ => bool_decide (reason = "NotFound")
  | errorString _ => false
  end.

Definition NewNotFound (request : NamespacedName) : error :=
  StatusError "NotFound" (request.1 +:+ "/" +:+ request.2 +:+ " not found").

(** Modelled from the spec: [controllerutil.ContainsFinalizer] of
    controller-runtime is not among the sources; it tells whether the token
    is among the object's finalizers (section 4.3, "finalizer token absent"). *)
Definition ContainsFinalizer (cr : ContainerRuntime) (finalizer : string) : bool :=
  bool_decide (finalizer ∈ Finalizers (Meta cr)).

Section Controller.
Context (r : reconciler) (v : Vendored).

(** Modelled from the spec: the client's [get(identity)] yields the stored
    object, NotFound when there is none, or the client's own read error
    (section 6). *)
Definition client_Get (request : NamespacedName) : M (error + ContainerRuntime) :=
  fun s =>
    match Client.get_fault (client r) request with
    | Some err => (Val (inl err), s)
    | None =>
        match store s !! request with
        | Some cr => (Val (inr cr), s)
        | None => (Val (inl (NewNotFound request)), s)
        end
    end.

(** Modelled from the spec: the client's [update(object)] either fails,
    leaving the store as it was, or replaces the stored object (section 6).
    Every attempt is recorded in the trace. *)
Definition client_write (op : WriteOp) (cr : ContainerRuntime) : M (option error) :=
  fun s =>
    let t := trace s ++ [EvWrite op cr] in
    match Client.write_fault (client r) op cr with
    | Some err => (Val (Some err), mkState (store s) t)
    | None => (Val None, mkState (<[key_of cr := cr]> (store s)) t)
    end.

(** Modelled from the spec: [controllerutils.EnsureFinalizer] is an
    idempotent add; when the token is present there is no store write
    (sections 4.3 and 8). *)
Definition EnsureFinalizer (cr : ContainerRuntime) (finalizer : string)
  : M (option error * ContainerRuntime) :=
  if ContainsFinalizer cr finalizer then mret (None, cr)
  else
    let cr' := setFinalizers (Finalizers (Meta cr) ++ [finalizer]) cr in
    err ← client_write OpEnsureFinalizer cr';
    mret (err, cr').

(** Modelled from the spec: [controllerutils.RemoveFinalizer] removes the
    given token and writes the object (section 4.3). *)
Definition RemoveFinalizer (cr : ContainerRuntime) (finalizer : string)
  : M (option error * ContainerRuntime) :=
  let cr' := setFinalizers (filter (λ f, f ≠ finalizer) (Finalizers (Meta cr))) cr in
  err ← client_write OpRemoveFinalizer cr';
  mret (err, cr').

(** Modelled from the spec: [extensionscontroller.DeleteAllFinalizers] clears
    all finalizer tokens and writes the object (section 4.3). *)
Definition DeleteAllFinalizers (cr : ContainerRuntime)
  : M (option error * ContainerRuntime) :=
  let cr' := setFinalizers [] cr in
  err ← client_write OpDeleteAllFinalizers cr';
  mret (err, cr').

(** Modelled from the spec: [extensionscontroller.RemoveAnnotation] clears
    the given annotation and writes the object (section 4.3). *)
Definition RemoveAnnotation (cr : ContainerRuntime) (annotation : string)
  : M (option error * ContainerRuntime) :=
  let cr' := setAnnotations (delete annotation (Annotations (Meta cr))) cr in
  err ← client_write OpRemoveAnnotation cr';
  mret (err, cr').

(** Modelled from the spec: the status updater's three reports each write
    the last-operation record with the given type and message (section 6). *)
Definition statusUpdater_Processing (cr : ContainerRuntime)
    (lastOperationType : LastOperationType) (description : string)
  : M (option error * ContainerRuntime) :=
  let cr' :=
    setLastOperation
      (mkLastOperation lastOperationType LastOperationStateProcessing description) cr in
  err ← client_write OpProcessing cr';
  mret (err, cr').

Definition statusUpdater_Error (cr : ContainerRuntime) (cause : error)
    (lastOperationType : LastOperationType) (description : string)
  : M (option error * ContainerRuntime) :=
  let cr' :=
    setLastOperation
      (mkLastOperation lastOperationType LastOperationStateError description) cr in
  err ← client_write (OpError cause) cr';
  mret (err, cr').

Definition statusUpdater_Success (cr : ContainerRuntime)
    (lastOperationType : LastOperationType) (description : string)
  : M (option error * ContainerRuntime) :=
  let cr' :=
    setLastOperation
      (mkLastOperation lastOperationType LastOperationStateSucceeded description) cr in
  err ← client_write OpSuccess cr';
  mret (err, cr').

(** A call of an actuator method: recorded, then it returns or panics. *)
Definition invoke (p : Phase)
    (method : Context -> ContainerRuntime -> Cluster -> Outcome)
    (ctx : Context) (cr : ContainerRuntime) (cluster : Cluster) : M (option error) :=
  fun s =>
    let s' := mkState (store s) (trace s ++ [EvActuator p ctx cr cluster]) in
    match method ctx cr cluster with
    | Returns err => (Val err, s')
    | Panics => (Panic, s')
    end.

(** The watchdog call: recorded, then its four results. *)
Definition GetOwnerCheckResultAndContext (ctx : Context)
    (namespace shootName key : string)
  : M (bool * Context * option CancelFunc * option error) :=
  _ ← emit (EvWatchdog namespace shootName key);
  mret (f_GetOwnerCheckResultAndContext v ctx namespace shootName key).

(** [kutil.ObjectName] of the container runtime and of the shoot. *)
Definition ObjectName_cr (cr : ContainerRuntime) : string :=
  f_ObjectName v (Namespace (Meta cr)) (Name (Meta cr)).

Definition ObjectName_shoot (shoot : Shoot) : string :=
  f_ObjectName v (ShootNamespace shoot) (ShootName shoot).

(** ** The phase handlers

    [reconcile], [restore], [delete] and [migrate] of reconciler.go, statement
    by statement; [if err != nil { return ... }] is the match on [err]. *)

Definition reconcile (ctx : Context) (cr : ContainerRuntime) (cluster : Cluster)
    (operationType : LastOperationType) : M (Result * option error) :=
  '(err, cr) ← EnsureFinalizer cr (c_FinalizerName v);
  match err with Some err => mret (Result0, Some err) | None =>
  '(err, cr) ← statusUpdater_Processing cr operationType "Reconciling the containerruntime";
  match err with Some err => mret (Result0, Some err) | None =>
  err ← invoke PhaseReconcile (Actuator.Reconcile (actuator r)) ctx cr cluster;
  match err with
  | Some err =>
      _ ← statusUpdater_Error cr (f_ReconcileErrCauseOrErr v err) operationType
            "Error reconciling containerruntime";
      mret (f_ReconcileErr v err)
  | None =>
  '(err, cr) ← statusUpdater_Success cr operationType "Successfully reconciled containerruntime";
  match err with Some err => mret (Result0, Some err) | None =>
  mret (Result0, None)
  end end end end.

Definition restore (ctx : Context) (cr : ContainerRuntime) (cluster : Cluster)
  : M (Result * option error) :=
  '(err, cr) ← EnsureFinalizer cr (c_FinalizerName v);
  match err with Some err => mret (Result0, Some err) | None =>
  '(err, cr) ← statusUpdater_Processing cr (c_LastOperationTypeRestore v)
                 "Restoring the containerruntime";
  match err with Some err => mret (Result0, Some err) | None =>
  err ← invoke PhaseRestore (Actuator.Restore (actuator r)) ctx cr cluster;
  match err with
  | Some err =>
      _ ← statusUpdater_Error cr (f_ReconcileErrCauseOrErr v err)
            (c_LastOperationTypeRestore v) "Error restoring containerruntime";
      mret (f_ReconcileErr v err)
  | None =>
  '(err, cr) ← statusUpdater_Success cr (c_LastOperationTypeRestore v)
                 "Successfully restored containerruntime";
  match err with Some err => mret (Result0, Some err) | None =>
  '(err, cr) ← RemoveAnnotation cr (c_GardenerOperation v);
  match err with
  | Some err =>
      mret (Result0, Some (Errorf_v "error removing annotation from containerruntime: " err))
  | None =>
  mret (Result0, None)
  end end end end end.

Definition delete (ctx : Context) (cr : ContainerRuntime) (cluster : Cluster)
  : M (Result * option error) :=
  if negb (ContainsFinalizer cr (c_FinalizerName v)) then mret (Result0, None)
  else
  '(err, cr) ← statusUpdater_Processing cr (c_LastOperationTypeDelete v)
                 "Deleting the containerruntime";
  match err with Some err => mret (Result0, Some err) | None =>
  err ← invoke PhaseDelete (Actuator.Delete (actuator r)) ctx cr cluster;
  match err with
  | Some err =>
      _ ← statusUpdater_Error cr (f_ReconcileErrCauseOrErr v err)
            (c_LastOperationTypeDelete v) "Error deleting containerruntime";
      mret (f_ReconcileErr v err)
  | None =>
  '(err, cr) ← statusUpdater_Success cr (c_LastOperationTypeDelete v)
                 "Successfully deleted containerruntime";
  match err with Some err => mret (Result0, Some err) | None =>
  '(err, cr) ← RemoveFinalizer cr (c_FinalizerName v);
  match err with
  | Some err =>
      mret (Result0,
            Some (Errorf_v "error removing finalizer from the containerruntime: " err))
  | None =>
  mret (Result0, None)
  end end end end.

Definition migrate (ctx : Context) (cr : ContainerRuntime) (cluster : Cluster)
  : M (Result * option error) :=
  '(err, cr) ← statusUpdater_Processing cr (c_LastOperationTypeMigrate v)
                 "Migrating the containerruntime";
  match err with Some err => mret (Result0, Some err) | None =>
  err ← invoke PhaseMigrate (Actuator.Migrate (actuator r)) ctx cr cluster;
  match err with
  | Some err =>
      _ ← statusUpdater_Error cr (f_ReconcileErrCauseOrErr v err)
            (c_LastOperationTypeMigrate v) "Error migrating containerruntime";
      mret (f_ReconcileErr v err)
  | None =>
  '(err, cr) ← statusUpdater_Success cr (c_LastOperationTypeMigrate v)
                 "Successfully migrated containerruntime";
  match err with Some err => mret (Result0, Some err) | None =>
  '(err, cr) ← DeleteAllFinalizers cr;
  match err with
  | Some err =>
      mret (Result0,
            Some (Errorf_v "error removing finalizers from the containerruntime: " err))
  | None =>
  '(err, cr) ← RemoveAnnotation cr (c_GardenerOperation v);
  match err with
  | Some err =>
      mret (Result0, Some (Errorf_v "error removing annotation from containerruntime: " err))
  | None =>
  mret (Result0, None)
  end end end end end.

(** ** The entry point *)

(** The [switch] that ends [Reconcile], with the context and the operation
    type computed before it. *)
Definition Reconcile_switch (ctx : Context) (cr : ContainerRuntime) (cluster : Cluster)
    (operationType : LastOperationType) : M (Result * option error) :=
  if f_ShouldSkipOperation v operationType cr then mret (Result0, None)
  else if decide (operationType = c_LastOperationTypeMigrate v) then migrate ctx cr cluster
  else if DeletionTimestamp (Meta cr) is Some _ then delete ctx cr cluster
  else if decide (operationType = c_LastOperationTypeRestore v) then restore ctx cr cluster
  else reconcile ctx cr cluster operationType.

Definition Reconcile (ctx : Context) (request : NamespacedName)
  : M (Result * option error) :=
  got ← client_Get request;
  match got with
  | inl err =>
      if IsNotFound err then mret (Result0, None) else mret (Result0, Some err)
  | inr cr =>
  match f_GetCluster v (Namespace (Meta cr)) with
  | inl err => mret (Result0, Some err)
  | inr cluster =>
  if f_IsFailed v cluster then mret (Result0, None)
  else
  let operationType :=
    f_ComputeOperationType v (Meta cr) (LastOperation_ (Status cr)) in
  match Shoot_ cluster with
  | Some shoot =>
      if decide (operationType = c_LastOperationTypeMigrate v)
      then Reconcile_switch ctx cr cluster operationType
      else
        let key := "containerruntime:" +:+ ObjectName_cr cr in
        '(ok, watchdogCtx, cleanup, err) ←
          GetOwnerCheckResultAndContext ctx (Namespace (Meta cr)) (ShootName shoot) key;
        match err with
        | Some err => mret (Result0, Some err)
        | None =>
            if negb ok
            then mret (Result0,
                       Some (Errorf_s "this seed is not the owner of shoot "
                               (ObjectName_shoot shoot)))
            else defer cleanup (Reconcile_switch watchdogCtx cr cluster operationType)
        end
  | None => Reconcile_switch ctx cr cluster operationType
  end
  end
  end.

End Controller.

(** ** Specification-side definitions *)

(** The operation type [Reconcile] computes for a fetched object. *)
Definition operationType_of (v : Vendored) (cr : ContainerRuntime) : LastOperationType :=
  f_ComputeOperationType v (Meta cr) (LastOperation_ (Status cr)).

(** The priority order of the dispatch as the spec words it:
    Migrate, then Delete (deletion marker set), then Restore, then Reconcile. *)
Inductive selects (v : Vendored) (operationType : LastOperationType)
    (cr : ContainerRuntime) : Phase -> Prop :=
  | selects_migrate :
      operationType = c_LastOperationTypeMigrate v ->
      selects v operationType cr PhaseMigrate
  | selects_delete :
      operationType ≠ c_LastOperationTypeMigrate v ->
      DeletionTimestamp (Meta cr) ≠ None ->
      selects v operationType cr PhaseDelete
  | selects_restore :
      operationType ≠ c_LastOperationTypeMigrate v ->
      DeletionTimestamp (Meta cr) = None ->
      operationType = c_LastOperationTypeRestore v ->
      selects v operationType cr PhaseRestore
  | selects_reconcile :
      operationType ≠ c_LastOperationTypeMigrate v ->
      DeletionTimestamp (Meta cr) = None ->
      operationType ≠ c_LastOperationTypeRestore v ->
      selects v operationType cr PhaseReconcile.

(** The handler of a phase, and the actuator method it calls. *)
Definition handler (r : reconciler) (v : Vendored) (p : Phase) (ctx : Context)
    (cr : ContainerRuntime) (cluster : Cluster) (operationType : LastOperationType)
  : M (Result * option error) :=
  match p with
  | PhaseReconcile => reconcile r v ctx cr cluster operationType
  | PhaseRestore => restore r v ctx cr cluster
  | PhaseDelete => delete r v ctx cr cluster
  | PhaseMigrate => migrate r v ctx cr cluster
  end.

Definition method (a : Actuator.t) (p : Phase)
  : Context -> ContainerRuntime -> Cluster -> Outcome :=
  match p with
  | PhaseReconcile => Actuator.Reconcile a
  | PhaseRestore => Actuator.Restore a
  | PhaseDelete => Actuator.Delete a
  | PhaseMigrate => Actuator.Migrate a
  end.

(** How an invocation gets past the Ownership Guard to the dispatch: the
    context the handler runs in, the cleanup that is deferred, and the
    watchdog calls made on the way.  The guard is bypassed for a nil shoot
    and for Migrate; otherwise the watchdog has to confirm ownership. *)
Inductive guard_passed (v : Vendored) (ctx : Context) (cr : ContainerRuntime)
    (cluster : Cluster) (operationType : LastOperationType)
  : Context -> option CancelFunc -> list Event -> Prop :=
  | guard_bypassed_no_shoot :
      Shoot_ cluster = None ->
      guard_passed v ctx cr cluster operationType ctx None []
  | guard_bypassed_migrate :
      operationType = c_LastOperationTypeMigrate v ->
      guard_passed v ctx cr cluster operationType ctx None []
  | guard_acquired shoot watchdogCtx cleanup :
      Shoot_ cluster = Some shoot ->
      operationType ≠ c_LastOperationTypeMigrate v ->
      f_GetOwnerCheckResultAndContext v ctx (Namespace (Meta cr)) (ShootName shoot)
        ("containerruntime:" +:+ ObjectName_cr v cr) = (true, watchdogCtx, cleanup, None) ->
      guard_passed v ctx cr cluster operationType watchdogCtx cleanup
        [EvWatchdog (Namespace (Meta cr)) (ShootName shoot)
           ("containerruntime:" +:+ ObjectName_cr v cr)].

(** The cleanup action of an invocation that acquires the Ownership Guard:
    the object is fetched, its cluster is resolved and not failed, the shoot
    is live, the operation is not Migrate, and the watchdog confirms
    ownership without error and hands out a cleanup action. *)
Definition acquired (r : reconciler) (v : Vendored) (ctx : Context)
    (request : NamespacedName) (s : State) : option CancelFunc :=
  match Client.get_fault (client r) request, store s !! request with
  | None, Some cr =>
      match f_GetCluster v (Namespace (Meta cr)) with
      | inr cluster =>
          match f_IsFailed v cluster, Shoot_ cluster with
          | false, Some shoot =>
              if decide (operationType_of v cr = c_LastOperationTypeMigrate v) then None
              else
                match f_GetOwnerCheckResultAndContext v ctx (Namespace (Meta cr))
                        (ShootName shoot) ("containerruntime:" +:+ ObjectName_cr v cr) with
                | (true, _, cleanup, None) => cleanup
                | _ => None
                end
          | _, _ => None
          end
      | inl _ => None
      end
  | _, _ => None
  end.

(** The cleanup actions invoked in a trace, in order. *)
Fixpoint cleanups (evs : list Event) : list CancelFunc :=
  match evs with
  | [] => []
  | EvCleanup c :: evs => c :: cleanups evs
  | _ :: evs => cleanups evs
  end.

Definition is_actuator_call (ev : Event) : bool :=
  match ev with EvActuator _ _ _ _ => true | _ => false end.

Definition is_watchdog_call (ev : Event) : bool :=
  match ev with EvWatchdog _ _ _ => true | _ => false end.

Definition is_write (ev : Event) : bool :=
  match ev with EvWrite _ _ => true | _ => false end.

(** The writes that are phase-specific bookkeeping after the actuator call:
    finalizer removal and annotation clearing. *)
Definition is_bookkeeping (ev : Event) : bool :=
  match ev with
  | EvWrite OpRemoveFinalizer _
  | EvWrite OpDeleteAllFinalizers _
  | EvWrite OpRemoveAnnotation _ => true
  | _ => false
  end.

(** The handlers only call the actuator and write to the store. *)
Definition handler_event (ev : Event) : bool := is_actuator_call ev || is_write ev.

#[global] Instance Phase_eq_dec : EqDecision Phase.
Proof. solve_decision. Defined.

(** What the handler of phase [p] may do: write to the store and call the
    actuator method of [p]. *)
Definition event_of_phase (p : Phase) (ev : Event) : bool :=
  match ev with
  | EvActuator q _ _ _ => bool_decide (q = p)
  | EvWrite _ _ => true
  | _ => false
  end.

(** The message a handler puts before the store's error when one of its
    bookkeeping writes is refused ([fmt.Errorf] in restore, delete and
    migrate). *)
Definition bookkeeping_message (op : WriteOp) : string :=
  match op with
  | OpRemoveFinalizer => "error removing finalizer from the containerruntime: "
  | OpDeleteAllFinalizers => "error removing finalizers from the containerruntime: "
  | OpRemoveAnnotation => "error removing annotation from containerruntime: "
  | _ => ""
  end.

(** The bookkeeping writes each handler makes after the actuator call. *)
Definition bookkeeping_of (p : Phase) (op : WriteOp) : bool :=
  match p, op with
  | PhaseRestore, OpRemoveAnnotation
  | PhaseDelete, OpRemoveFinalizer
  | PhaseMigrate, OpDeleteAllFinalizers
  | PhaseMigrate, OpRemoveAnnotation => true
  | _, _ => false
  end.

(** The operation type a handler passes to the status updater: [reconcile]
    passes on the type it was given, the others their own constant. *)
Definition reported_type (v : Vendored) (p : Phase) (operationType : LastOperationType)
  : LastOperationType :=
  match p with
  | PhaseReconcile => operationType
  | PhaseRestore => c_LastOperationTypeRestore v
  | PhaseDelete => c_LastOperationTypeDelete v
  | PhaseMigrate => c_LastOperationTypeMigrate v
  end.

Definition is_status_write (op : WriteOp) : bool :=
  match op with
  | OpProcessing | OpSuccess | OpError _ => true
  | _ => false
  end.

Definition reported_state (op : WriteOp) : LastOperationState :=
  match op with
  | OpSuccess => LastOperationStateSucceeded
  | OpError _ => LastOperationStateError
  | _ => LastOperationStateProcessing
  end.

(** An event of a handler that runs in context [ctx] for [cluster]: the
    actuator is called with that context and that cluster. *)
Definition in_context (ctx : Context) (cluster : Cluster) (ev : Event) : Prop :=
  match ev with
  | EvActuator _ x _ cl => x = ctx /\ cl = cluster
  | EvWrite _ _ => True
  | _ => False
  end.

(** ** An example environment *)

Module Demo.

Definition FinalizerName : string := "extensions.gardener.cloud/containerruntime".
Definition GardenerOperation : string := "gardener.cloud/operation".

(** Modelled from the spec: the classifier of section 4.1, on the
    last-operation record and the deletion marker. *)
Definition ComputeOperationType (meta : ObjectMeta) (lastOperation : option LastOperation)
  : LastOperationType :=
  let last := from_option lo_Type "" lastOperation in
  if decide (last = "Migrate") then "Migrate"
  else if DeletionTimestamp meta is Some _ then "Delete"
  else if decide (last = "Restore") then "Restore"
  else "Reconcile".

(** A shoot whose opaque status reads failed is a failed cluster. *)
Definition IsFailed (cluster : Cluster) : bool :=
  match Shoot_ cluster with
  | Some shoot => bool_decide (ShootStatus shoot = "Failed")
  | None => false
  end.

Definition shoot (status : string) : Shoot := mkShoot "garden-dev" "crazy-botany" status.

(** Every namespace resolves to the given cluster; [owner] is the watchdog's
    verdict and [cleanup] the action it hands out; nothing is skipped;
    [ReconcileErr] returns the error as it is. *)
Definition vendored (cluster : Cluster) (owner : bool) (cleanup : option CancelFunc)
  : Vendored :=
  mkVendored FinalizerName GardenerOperation "Migrate" "Restore" "Delete"
    (fun _ => inr cluster)
    IsFailed
    ComputeOperationType
    (fun _ _ => false)
    (fun ctx _ _ _ => (owner, S ctx, cleanup, None))
    (fun namespace name => namespace +:+ "/" +:+ name)
    (fun err => (Result0, Some err))
    (fun err => err).

Definition live : Cluster := mkCluster (Some (shoot "Succeeded")).
Definition failed : Cluster := mkCluster (Some (shoot "Failed")).

Definition boom : error := errorString "boom".
Definition conflict : error := StatusError "Conflict" "the object has been modified".

Definition always (o : Outcome) : Actuator.t :=
  Actuator.mk (fun _ _ _ => o) (fun _ _ _ => o) (fun _ _ _ => o) (fun _ _ _ => o).

(** A client whose writes through the helper [bad] are refused. *)
Definition refusing (bad : WriteOp -> bool) : Client.t :=
  Client.mk (fun _ => None) (fun op _ => if bad op then Some conflict else None).

Definition healthy : Client.t := refusing (fun _ => false).

Definition object (finalizers : list string) (annotations : gmap string string)
    (deletion : option Z) (last : option LastOperation) : ContainerRuntime :=
  mkContainerRuntime
    (mkObjectMeta "shoot--dev--crazy-botany" "gvisor" finalizers annotations deletion)
    "gvisor" (mkStatus last).

Definition request : NamespacedName := ("shoot--dev--crazy-botany", "gvisor").

Definition holding (cr : ContainerRuntime) : State :=
  mkState {[ key_of cr := cr ]} [].

End Demo.

(** ** An environment that requeues

    [ReconcileErr] belongs to another package and decides what a handler
    returns after an actuator error.  Here it answers an error that asks for
    a later retry with a requeue request and a nil error, and returns every
    other error as it is; [ReconcileErrCauseOrErr] gives the cause of the
    former and leaves the others alone. *)

Module DemoRequeue.

#[global] Instance error_eq_dec : EqDecision error.
Proof. solve_decision. Defined.

Definition retry_later : error :=
  errorString "requeue in 30s due to original error: boom".

Definition ReconcileErr (err : error) : Result * option error :=
  if decide (err = retry_later) then (mkResult true 30, None) else (Result0, Some err).

Definition ReconcileErrCauseOrErr (err : error) : error :=
  if decide (err = retry_later) then Demo.boom else err.

Definition vendored : Vendored :=
  mkVendored Demo.FinalizerName Demo.GardenerOperation "Migrate" "Restore" "Delete"
    (fun _ => inr Demo.live)
    Demo.IsFailed
    Demo.ComputeOperationType
    (fun _ _ => false)
    (fun ctx _ _ _ => (true, S ctx, Some 7, None))
    (fun namespace name => namespace +:+ "/" +:+ name)
    ReconcileErr
    ReconcileErrCauseOrErr.

End DemoRequeue.

(** ** Proof machinery *)

Create HintDb reconciler discriminated.

#[local] Hint Unfold Reconcile Reconcile_switch handler reconcile restore delete migrate
  defer EnsureFinalizer RemoveFinalizer DeleteAllFinalizers RemoveAnnotation
  statusUpdater_Processing statusUpdater_Error statusUpdater_Success
  client_Get client_write invoke GetOwnerCheckResultAndContext emit
  operationType_of : reconciler.

(** Symbolic execution of a run in the goal: unfold the handlers and the
    monad, then split on every call whose result the code inspects. *)
Ltac run :=
  autounfold with reconciler;
  unfold mbind, M_bind, mret, M_ret;
  simpl.

Ltac cases :=
  repeat (match goal with
          | |- context [match ?x with _ => _ end] =>
              lazymatch x with
              | context [match _ with _ => _ end] => fail
              | _ => destruct x eqn:?
              end
          end; simpl).

Ltac trace_eq :=
  first
    [ by exists []; rewrite app_nil_r
    | eexists; split; [by rewrite <- ?app_assoc | done] ].

Lemma trace_same (t evs : list Event) : t = t ++ evs -> evs = [].
Proof. intros H. apply (app_inv_head t). by rewrite app_nil_r, <- H. Qed.

(** Read the events of a run off an equation between traces. *)
Ltac trace_inv :=
  simplify_eq /=;
  repeat match goal with
         | H : ?t = ?t ++ _ |- _ => apply trace_same in H
         | H : _ ++ _ = _ ++ _ |- _ =>
             rewrite <- ?app_assoc in H; apply app_inv_head in H
         end;
  simplify_eq; simpl in *.

(** Two recorded results of one call agree. *)
Ltac same_call :=
  simpl in *;
  repeat match goal with
         | H1 : ?l = _, H2 : ?l = _ |- _ => rewrite H1 in H2
         end;
  simplify_eq.

Ltac elem_inv :=
  repeat match goal with
         | H : _ ∈ [] |- _ => by apply not_elem_of_nil in H
         | H : _ ∈ _ :: _ |- _ => apply elem_of_cons in H as [H|H]
         end;
  simplify_eq.

(** ** Examples *)

(** Scenario "normal create" of the spec: an object with no finalizer and no
    last operation, on a live cluster this seed owns.  The finalizer is
    added, the actuator's Reconcile runs, the status ends Succeeded, and the
    guard's cleanup is the last call. *)
Example scenario_normal_create :
  let cr := Demo.object [] ∅ None None in
  let r := mkReconciler (Demo.always (Returns None)) Demo.healthy in
  let run := Reconcile r (Demo.vendored Demo.live true (Some 7)) 0 Demo.request
               (Demo.holding cr) in
  run.1 = Val (Result0, None) /\
  store run.2 !! Demo.request =
    Some (Demo.object [Demo.FinalizerName] ∅ None
            (Some (mkLastOperation "Reconcile" LastOperationStateSucceeded
                     "Successfully reconciled containerruntime"))) /\
  filter (fun ev => is_actuator_call ev = true) (trace run.2) =
    [EvActuator PhaseReconcile 1
       (Demo.object [Demo.FinalizerName] ∅ None
          (Some (mkLastOperation "Reconcile" LastOperationStateProcessing
                   "Reconciling the containerruntime")))
       Demo.live] /\
  last (trace run.2) = Some (EvCleanup 7).
Proof. by vm_compute. Qed.

(** The idempotent add: on an object that already carries the finalizer the
    pre-step writes nothing and leaves the list of tokens as it is. *)
Example EnsureFinalizer_idempotent :
  let cr := Demo.object ["kubernetes"; Demo.FinalizerName] ∅ None None in
  EnsureFinalizer (mkReconciler (Demo.always Panics) Demo.healthy) cr Demo.FinalizerName
    (Demo.holding cr)
  = (Val (None, cr), Demo.holding cr).
Proof. by vm_compute. Qed.

(** A panic of the actuator unwinds the invocation through the deferred
    cleanup. *)
Example scenario_actuator_panics :
  let cr := Demo.object [Demo.FinalizerName] ∅ (Some 1700000000%Z) None in
  let r := mkReconciler (Demo.always Panics) Demo.healthy in
  let run := Reconcile r (Demo.vendored Demo.live true (Some 7)) 0 Demo.request
               (Demo.holding cr) in
  run.1 = Panic /\ cleanups (trace run.2) = [7].
Proof. by vm_compute. Qed.

(** ** What the handlers do to the trace *)

Lemma cleanups_app evs1 evs2 : cleanups (evs1 ++ evs2) = cleanups evs1 ++ cleanups evs2.
Proof.
  induction evs1 as [|[] evs1 IH]; simpl; by rewrite ?IH.
Qed.

Lemma event_of_phase_handler_event p evs :
  forallb (event_of_phase p) evs = true -> forallb handler_event evs = true.
Proof.
  induction evs as [|[] evs IH]; simpl; try done; auto.
  intros [_ ?]%andb_prop. auto.
Qed.

Lemma handler_events_no_cleanup evs :
  forallb handler_event evs = true -> cleanups evs = [].
Proof.
  induction evs as [|[] evs IH]; simpl; try done; auto.
Qed.

Lemma handler_events_no_watchdog evs :
  forallb handler_event evs = true -> forallb (fun ev => negb (is_watchdog_call ev)) evs = true.
Proof.
  induction evs as [|[] evs IH]; simpl; try done; auto.
Qed.

Lemma handler_phase_trace r v p ctx cr cluster operationType s :
  exists evs,
    trace (handler r v p ctx cr cluster operationType s).2 = trace s ++ evs /\
    forallb (event_of_phase p) evs = true.
Proof.
  destruct p; run; cases; trace_eq.
Qed.

Lemma handler_trace r v p ctx cr cluster operationType s :
  exists evs,
    trace (handler r v p ctx cr cluster operationType s).2 = trace s ++ evs /\
    forallb handler_event evs = true.
Proof.
  destruct (handler_phase_trace r v p ctx cr cluster operationType s) as (evs & ? & ?).
  eauto using event_of_phase_handler_event.
Qed.

Lemma switch_trace r v ctx cr cluster operationType s :
  exists evs,
    trace (Reconcile_switch r v ctx cr cluster operationType s).2 = trace s ++ evs /\
    forallb handler_event evs = true.
Proof.
  unfold Reconcile_switch.
  destruct (f_ShouldSkipOperation _ _ _); [by exists []; rewrite app_nil_r|].
  destruct (decide _); [apply (handler_trace r v PhaseMigrate ctx cr cluster operationType)|].
  destruct (DeletionTimestamp _);
    [apply (handler_trace r v PhaseDelete ctx cr cluster operationType)|].
  destruct (decide _); [apply (handler_trace r v PhaseRestore ctx cr cluster operationType)|].
  apply (handler_trace r v PhaseReconcile).
Qed.

(** ** The dispatch and the guard *)

Lemma selects_functional v operationType cr p q :
  selects v operationType cr p -> selects v operationType cr q -> p = q.
Proof.
  destruct 1; destruct 1; congruence.
Qed.

Lemma selects_total v operationType cr : exists p, selects v operationType cr p.
Proof.
  destruct (decide (operationType = c_LastOperationTypeMigrate v));
    [by exists PhaseMigrate; constructor|].
  destruct (DeletionTimestamp (Meta cr)) eqn:Hd;
    [exists PhaseDelete; constructor; [done | by rewrite Hd]|].
  destruct (decide (operationType = c_LastOperationTypeRestore v));
    [by exists PhaseRestore; constructor|].
  by exists PhaseReconcile; constructor.
Qed.

Lemma switch_selects r v ctx cr cluster operationType p :
  f_ShouldSkipOperation v operationType cr = false ->
  selects v operationType cr p ->
  Reconcile_switch r v ctx cr cluster operationType
  = handler r v p ctx cr cluster operationType.
Proof.
  intros Hskip Hsel. unfold Reconcile_switch. rewrite Hskip.
  destruct Hsel as [Hm|Hm Hd|Hm Hd Hr|Hm Hd Hr].
  - by rewrite decide_True.
  - rewrite decide_False by done. by destruct (DeletionTimestamp _).
  - rewrite decide_False, Hd by done. by rewrite decide_True.
  - rewrite decide_False, Hd by done. by rewrite decide_False.
Qed.

Lemma acquired_guard_passed r v ctx request s c :
  acquired r v ctx request s = Some c <->
  exists cr cluster watchdogCtx evs,
    Client.get_fault (client r) request = None /\
    store s !! request = Some cr /\
    f_GetCluster v (Namespace (Meta cr)) = inr cluster /\
    f_IsFailed v cluster = false /\
    guard_passed v ctx cr cluster (operationType_of v cr) watchdogCtx (Some c) evs.
Proof.
  unfold acquired. split.
  - intros H. repeat (case_match; simplify_eq /=).
    eexists _, _, _, _. repeat split; try done.
    by eapply guard_acquired.
  - intros (cr & cluster & wctx & evs & -> & -> & -> & -> & Hg).
    inversion Hg as [| |shoot ? ? Hshoot Hop Hw]; subst.
    rewrite Hshoot. destruct (decide _); [done|]. by rewrite Hw.
Qed.

Lemma ContainsFinalizer_true cr finalizer :
  ContainsFinalizer cr finalizer = true <-> finalizer ∈ Finalizers (Meta cr).
Proof. apply bool_decide_eq_true. Qed.

Lemma ContainsFinalizer_false cr finalizer :
  ContainsFinalizer cr finalizer = false <-> finalizer ∉ Finalizers (Meta cr).
Proof. apply bool_decide_eq_false. Qed.

(** ** Theorems *)

(** C1. An invocation that fetches the object, resolves a cluster that is
    not failed, gets past the Ownership Guard and is not skipped runs exactly
    one phase handler, the one the priority order Migrate, Delete (deletion
    timestamp set), Restore, Reconcile selects: the phase exists and is unique
    for every object, [Reconcile] is the run of that phase's handler (in the
    guard's context, followed by the deferred cleanup), and the only actuator
    method that run can call is that phase's. *)
Theorem Reconcile_dispatch r v ctx request s cr cluster ctx' cleanup evs :
  Client.get_fault (client r) request = None ->
  store s !! request = Some cr ->
  f_GetCluster v (Namespace (Meta cr)) = inr cluster ->
  f_IsFailed v cluster = false ->
  guard_passed v ctx cr cluster (operationType_of v cr) ctx' cleanup evs ->
  f_ShouldSkipOperation v (operationType_of v cr) cr = false ->
  exists p,
    selects v (operationType_of v cr) cr p /\
    (forall q, selects v (operationType_of v cr) cr q -> q = p) /\
    Reconcile r v ctx request s =
      defer cleanup (handler r v p ctx' cr cluster (operationType_of v cr))
        (mkState (store s) (trace s ++ evs)) /\
    exists evs',
      trace (Reconcile r v ctx request s).2 =
        trace s ++ evs ++ evs' ++ from_option (fun c => [EvCleanup c]) [] cleanup /\
      forallb (event_of_phase p) evs' = true.
Proof.
  intros Hget Hcr Hcluster Hfailed Hguard Hskip.
  destruct (selects_total v (operationType_of v cr) cr) as [p Hsel].
  exists p. split; [done|]. split; [eauto using selects_functional|].
  assert (Hrun : Reconcile r v ctx request s =
            defer cleanup (handler r v p ctx' cr cluster (operationType_of v cr))
              (mkState (store s) (trace s ++ evs))).
  { rewrite <- (switch_selects r v ctx' cr cluster _ p Hskip Hsel).
    unfold Reconcile, client_Get, GetOwnerCheckResultAndContext, emit,
      mbind, M_bind, mret, M_ret.
    rewrite Hget, Hcr, Hcluster, Hfailed. fold (operationType_of v cr).
    destruct Hguard as [Hshoot|Hm|shoot wctx cl Hshoot Hm Hw].
    - rewrite Hshoot. simpl. rewrite app_nil_r. by destruct s.
    - simpl. rewrite app_nil_r. destruct (Shoot_ cluster).
      + rewrite decide_True by done. by destruct s.
      + by destruct s.
    - rewrite Hshoot, decide_False by done. by rewrite Hw. }
  split; [done|]. rewrite Hrun.
  destruct (handler_phase_trace r v p ctx' cr cluster (operationType_of v cr)
              (mkState (store s) (trace s ++ evs))) as (evs' & Ht & Hev).
  exists evs'. split; [|done].
  unfold defer. destruct cleanup as [c|]; simpl.
  - destruct (handler _ _ _ _ _ _ _ _) as [res s1]. simpl in *.
    by rewrite Ht, <- !app_assoc.
  - rewrite Ht, app_nil_r. simpl. by rewrite <- app_assoc.
Qed.

Lemma Reconcile_dispatch_witness :
  let cr :=
    Demo.object [Demo.FinalizerName] ∅ (Some 1700000000%Z)
      (Some (mkLastOperation "Restore" LastOperationStateSucceeded "")) in
  let r := mkReconciler (Demo.always (Returns None)) Demo.healthy in
  let v := Demo.vendored Demo.live true (Some 7) in
  let watchdog :=
    EvWatchdog "shoot--dev--crazy-botany" "crazy-botany"
      "containerruntime:shoot--dev--crazy-botany/gvisor" in
  exists p,
    selects v (operationType_of v cr) cr p /\
    (forall q, selects v (operationType_of v cr) cr q -> q = p) /\
    Reconcile r v 0 Demo.request (Demo.holding cr) =
      defer (Some 7) (handler r v p 1 cr Demo.live (operationType_of v cr))
        (mkState (store (Demo.holding cr)) (trace (Demo.holding cr) ++ [watchdog])) /\
    exists evs',
      trace (Reconcile r v 0 Demo.request (Demo.holding cr)).2 =
        trace (Demo.holding cr) ++ [watchdog] ++ evs' ++ [EvCleanup 7] /\
      forallb (event_of_phase p) evs' = true.
Proof.
  intros cr r v watchdog.
  apply (Reconcile_dispatch r v 0 Demo.request (Demo.holding cr) cr Demo.live
           1 (Some 7) [watchdog]); try reflexivity.
  apply (guard_acquired v 0 cr Demo.live (operationType_of v cr) (Demo.shoot "Succeeded"));
    [reflexivity | by vm_compute | reflexivity].
Defined.

(** C2. When the Processing write, the actuator's Migrate call and the
    Succeeded write of the migrate handler succeed, then: if both cleanup
    writes are accepted, the handler returns success and the stored object
    has no finalizer token at all (whatever tokens it started with) and no
    operation annotation; if the store refuses the write that clears the
    finalizers, or the one that clears the annotation, the handler returns an
    error made of its message for that step and the store's error. *)
Theorem migrate_clears_everything r v ctx cr cluster s :
  let processing :=
    setLastOperation
      (mkLastOperation (c_LastOperationTypeMigrate v) LastOperationStateProcessing
         "Migrating the containerruntime") cr in
  let succeeded :=
    setLastOperation
      (mkLastOperation (c_LastOperationTypeMigrate v) LastOperationStateSucceeded
         "Successfully migrated containerruntime") processing in
  let released := setFinalizers [] succeeded in
  let cleared :=
    setAnnotations (base.delete (c_GardenerOperation v) (Annotations (Meta released)))
      released in
  Client.write_fault (client r) OpProcessing processing = None ->
  Actuator.Migrate (actuator r) ctx processing cluster = Returns None ->
  Client.write_fault (client r) OpSuccess succeeded = None ->
  match Client.write_fault (client r) OpDeleteAllFinalizers released,
        Client.write_fault (client r) OpRemoveAnnotation cleared with
  | None, None =>
      exists s',
        migrate r v ctx cr cluster s = (Val (Result0, None), s') /\
        store s' !! key_of cr = Some cleared /\
        Finalizers (Meta cleared) = [] /\
        Annotations (Meta cleared) !! c_GardenerOperation v = None
  | Some err, _ =>
      (migrate r v ctx cr cluster s).1 =
        Val (Result0,
             Some (Errorf_v "error removing finalizers from the containerruntime: " err))
  | None, Some err =>
      (migrate r v ctx cr cluster s).1 =
        Val (Result0,
             Some (Errorf_v "error removing annotation from containerruntime: " err))
  end.
Proof.
  intros processing succeeded released cleared Hp Ha Hs.
  subst processing succeeded released cleared. run.
  rewrite Hp. simpl. rewrite Ha. simpl. rewrite Hs. simpl.
  destruct (Client.write_fault _ OpDeleteAllFinalizers _); simpl; [done|].
  destruct (Client.write_fault _ OpRemoveAnnotation _); simpl; [done|].
  eexists. split; [done|]. simpl. split; [|split; [done|]].
  - apply lookup_insert_eq.
  - apply lookup_delete_eq.
Qed.

Lemma migrate_clears_everything_witness :
  let cr :=
    Demo.object ["kubernetes"; Demo.FinalizerName; "foregroundDeletion"]
      {[ Demo.GardenerOperation := "migrate" ]} None None in
  let r := mkReconciler (Demo.always (Returns None)) Demo.healthy in
  let v := Demo.vendored Demo.live false None in
  exists s' cleared,
    migrate r v 0 cr Demo.live (Demo.holding cr) = (Val (Result0, None), s') /\
    store s' !! key_of cr = Some cleared /\
    Finalizers (Meta cleared) = [] /\
    Annotations (Meta cleared) !! Demo.GardenerOperation = None.
Proof.
  intros cr r v.
  destruct (migrate_clears_everything r v 0 cr Demo.live (Demo.holding cr)
              eq_refl eq_refl eq_refl) as (s' & H).
  eexists s', _. exact H.
Defined.


(** C3. With a live shoot and an operation type other than Migrate, a
    watchdog that denies ownership makes [Reconcile] return the error
    "this seed is not the owner of shoot <name>", and a watchdog that fails
    makes it return the watchdog's error; in both cases the only call made
    is the one to the watchdog and the store is untouched. *)
Theorem Reconcile_not_owner r v ctx request s cr cluster shoot ok watchdogCtx cleanup err :
  let key := "containerruntime:" +:+ ObjectName_cr v cr in
  let consulted :=
    mkState (store s)
      (trace s ++ [EvWatchdog (Namespace (Meta cr)) (ShootName shoot) key]) in
  Client.get_fault (client r) request = None ->
  store s !! request = Some cr ->
  f_GetCluster v (Namespace (Meta cr)) = inr cluster ->
  f_IsFailed v cluster = false ->
  Shoot_ cluster = Some shoot ->
  operationType_of v cr ≠ c_LastOperationTypeMigrate v ->
  f_GetOwnerCheckResultAndContext v ctx (Namespace (Meta cr)) (ShootName shoot) key
    = (ok, watchdogCtx, cleanup, err) ->
  (forall e, err = Some e ->
     Reconcile r v ctx request s = (Val (Result0, Some e), consulted)) /\
  (err = None -> ok = false ->
     Reconcile r v ctx request s =
       (Val (Result0,
             Some (errorString
                     ("this seed is not the owner of shoot " +:+ ObjectName_shoot v shoot))),
        consulted)).
Proof.
  intros key consulted Hget Hcr Hcluster Hfailed Hshoot Hop Hwatch.
  subst key consulted.
  unfold Reconcile, client_Get, GetOwnerCheckResultAndContext, emit, operationType_of,
    mbind, M_bind, mret, M_ret in *.
  rewrite Hget, Hcr, Hcluster, Hfailed, Hshoot.
  destruct (decide _) as [|_]; [done|]. rewrite Hwatch.
  split; [by intros e -> | by intros -> ->].
Qed.

Lemma Reconcile_not_owner_witness :
  let cr := Demo.object [] ∅ None None in
  Reconcile (mkReconciler (Demo.always Panics) Demo.healthy)
    (Demo.vendored Demo.live false None) 0 Demo.request (Demo.holding cr)
  = (Val (Result0,
          Some (errorString "this seed is not the owner of shoot garden-dev/crazy-botany")),
     mkState (store (Demo.holding cr))
       [EvWatchdog "shoot--dev--crazy-botany" "crazy-botany"
          "containerruntime:shoot--dev--crazy-botany/gvisor"]).
Proof.
  intros cr.
  refine (proj2 (Reconcile_not_owner (mkReconciler (Demo.always Panics) Demo.healthy)
                   (Demo.vendored Demo.live false None) 0 Demo.request (Demo.holding cr)
                   cr Demo.live (Demo.shoot "Succeeded") false 1 None None
                   _ _ _ _ _ _ _) _ _);
    first [reflexivity | by vm_compute].
Defined.

(** C4 as stated does not hold: an invocation classified as Migrate (fetched,
    cluster not failed, not skipped) need not reach the actuator's Migrate
    method.  Here the store refuses the handler's Processing write, and the
    whole run is that one refused write. *)
Lemma migrate_without_actuator_call :
  ~ (forall r v ctx request s cr cluster,
       Client.get_fault (client r) request = None ->
       store s !! request = Some cr ->
       f_GetCluster v (Namespace (Meta cr)) = inr cluster ->
       f_IsFailed v cluster = false ->
       operationType_of v cr = c_LastOperationTypeMigrate v ->
       f_ShouldSkipOperation v (operationType_of v cr) cr = false ->
       exists x c cl,
         EvActuator PhaseMigrate x c cl ∈ trace (Reconcile r v ctx request s).2).
Proof.
  intros H.
  pose (cr := Demo.object [Demo.FinalizerName] {[ Demo.GardenerOperation := "migrate" ]}
                None (Some (mkLastOperation "Migrate" LastOperationStateError ""))).
  pose (r := mkReconciler (Demo.always (Returns None))
               (Demo.refusing (fun op => if op is OpProcessing then true else false))).
  destruct (H r (Demo.vendored Demo.live false None) 0 Demo.request (Demo.holding cr)
              cr Demo.live eq_refl eq_refl eq_refl eq_refl eq_refl eq_refl)
    as (x & c & cl & Hin).
  apply list_elem_of_In in Hin. vm_compute in Hin.
  by destruct Hin as [Hin|[]].
Qed.

(** C4, amended. When the operation type is Migrate, or the cluster has no
    shoot, the watchdog is not consulted and no cleanup is deferred, whatever
    the watchdog would have answered.  For Migrate the invocation that is not
    skipped is the run of the migrate handler on the caller's own context,
    and once the handler's Processing write is accepted, the actuator's
    Migrate method is called. *)
Theorem Reconcile_migrate_bypasses_guard r v ctx request s cr cluster :
  let processing :=
    setLastOperation
      (mkLastOperation (c_LastOperationTypeMigrate v) LastOperationStateProcessing
         "Migrating the containerruntime") cr in
  Client.get_fault (client r) request = None ->
  store s !! request = Some cr ->
  f_GetCluster v (Namespace (Meta cr)) = inr cluster ->
  f_IsFailed v cluster = false ->
  operationType_of v cr = c_LastOperationTypeMigrate v \/ Shoot_ cluster = None ->
  (exists evs,
     trace (Reconcile r v ctx request s).2 = trace s ++ evs /\
     forallb (fun ev => negb (is_watchdog_call ev)) evs = true /\
     cleanups evs = []) /\
  (operationType_of v cr = c_LastOperationTypeMigrate v ->
   f_ShouldSkipOperation v (operationType_of v cr) cr = false ->
   Reconcile r v ctx request s = migrate r v ctx cr cluster s /\
   (Client.write_fault (client r) OpProcessing processing = None ->
    exists evs,
      trace (Reconcile r v ctx request s).2 =
        trace s ++ EvWrite OpProcessing processing
                :: EvActuator PhaseMigrate ctx processing cluster :: evs)).
Proof.
  intros processing Hget Hcr Hcluster Hfailed Hby.
  assert (Hsw : Reconcile r v ctx request s
                = Reconcile_switch r v ctx cr cluster (operationType_of v cr) s).
  { unfold Reconcile, client_Get, mbind, M_bind, mret, M_ret, operationType_of in *.
    rewrite Hget, Hcr, Hcluster, Hfailed.
    destruct Hby as [Hm | ->]; [|done].
    destruct (Shoot_ cluster); [|done]. by rewrite decide_True. }
  split.
  - rewrite Hsw.
    destruct (switch_trace r v ctx cr cluster (operationType_of v cr) s) as (evs & Ht & Hev).
    exists evs. eauto using handler_events_no_watchdog, handler_events_no_cleanup.
  - intros Hm Hskip. rewrite Hsw. unfold Reconcile_switch.
    rewrite Hskip, decide_True by done. split; [done|].
    intros Hw. subst processing. run. rewrite Hw. simpl.
    cases; eexists; by rewrite <- ?app_assoc.
Qed.

Lemma Reconcile_migrate_bypasses_guard_witness :
  let cr :=
    Demo.object ["kubernetes"; Demo.FinalizerName] ∅ None
      (Some (mkLastOperation "Migrate" LastOperationStateError "")) in
  let processing :=
    setLastOperation
      (mkLastOperation "Migrate" LastOperationStateProcessing
         "Migrating the containerruntime") cr in
  let r := mkReconciler (Demo.always (Returns None)) Demo.healthy in
  let v := Demo.vendored Demo.live false None in
  exists evs,
    trace (Reconcile r v 0 Demo.request (Demo.holding cr)).2 =
      trace (Demo.holding cr) ++ EvWrite OpProcessing processing
        :: EvActuator PhaseMigrate 0 processing Demo.live :: evs.
Proof.
  intros cr processing r v.
  refine (proj2 (proj2 (Reconcile_migrate_bypasses_guard r v 0 Demo.request
                          (Demo.holding cr) cr Demo.live _ _ _ _ _) _ _) _);
    first [reflexivity | by left].
Defined.

(** C5. Deleting an object that does not carry the finalizer token is a
    no-op: the delete handler returns success at once and leaves the state
    (store and trace) exactly as it was, so the actuator's Delete is not
    called and nothing is written. *)
Theorem delete_without_finalizer r v ctx cr cluster s :
  c_FinalizerName v ∉ Finalizers (Meta cr) ->
  delete r v ctx cr cluster s = (Val (Result0, None), s).
Proof.
  intros Hfin. unfold delete, ContainsFinalizer.
  rewrite bool_decide_eq_false_2 by done. reflexivity.
Qed.

Lemma delete_without_finalizer_witness :
  let cr := Demo.object ["kubernetes"] ∅ (Some 1700000000%Z) None in
  (Demo.FinalizerName ∉ Finalizers (Meta cr)) /\
  (delete (mkReconciler (Demo.always Panics) Demo.healthy)
     (Demo.vendored Demo.live true None) 0 cr Demo.live (Demo.holding cr)
   = (Val (Result0, None), Demo.holding cr)).
Proof.
  intros cr.
  assert (H : Demo.FinalizerName ∉ Finalizers (Meta cr)) by (apply (bool_decide_unpack _); vm_compute; exact I).
  split; [exact H |].
  exact (delete_without_finalizer (mkReconciler (Demo.always Panics) Demo.healthy)
           (Demo.vendored Demo.live true None) 0 cr Demo.live (Demo.holding cr) H).
Defined.

(** C6. When the resolved cluster is failed, [Reconcile] returns success and
    leaves the state exactly as it was: no handler has run, the watchdog has
    not been consulted and nothing has been written, whatever the object's
    operation type is. *)
Theorem Reconcile_failed_cluster r v ctx request s cr cluster :
  Client.get_fault (client r) request = None ->
  store s !! request = Some cr ->
  f_GetCluster v (Namespace (Meta cr)) = inr cluster ->
  f_IsFailed v cluster = true ->
  Reconcile r v ctx request s = (Val (Result0, None), s).
Proof.
  intros Hget Hcr Hcluster Hfailed.
  unfold Reconcile, client_Get, mbind, M_bind, mret, M_ret.
  by rewrite Hget, Hcr, Hcluster, Hfailed.
Qed.

Lemma Reconcile_failed_cluster_witness :
  let cr :=
    Demo.object [Demo.FinalizerName] ∅ None
      (Some (mkLastOperation "Migrate" LastOperationStateProcessing "")) in
  Reconcile (mkReconciler (Demo.always Panics) Demo.healthy)
    (Demo.vendored Demo.failed true None) 0 Demo.request (Demo.holding cr)
  = (Val (Result0, None), Demo.holding cr).
Proof.
  intros cr.
  apply (Reconcile_failed_cluster _ _ _ _ _ cr Demo.failed); reflexivity.
Defined.

(** C7 as stated does not hold: after a failed actuator call a handler need
    not return an error at all.  What it returns is decided by
    [ReconcileErr]; where that answers the actuator's error with a requeue
    request, the handler returns that request and a nil error. *)
Lemma actuator_failure_without_error :
  ~ (forall r v p ctx cr cluster operationType s res s' evs q x c0 cl e,
       handler r v p ctx cr cluster operationType s = (res, s') ->
       trace s' = trace s ++ evs ->
       EvActuator q x c0 cl ∈ evs ->
       method (actuator r) q x c0 cl = Returns (Some e) ->
       exists result err, res = Val (result, Some err)).
Proof.
  intros H.
  pose (cr := Demo.object [Demo.FinalizerName] ∅ None None).
  pose (r := mkReconciler (Demo.always (Returns (Some DemoRequeue.retry_later)))
               Demo.healthy).
  pose (c0 := Demo.object [Demo.FinalizerName] ∅ None
                (Some (mkLastOperation "Reconcile" LastOperationStateProcessing
                         "Reconciling the containerruntime"))).
  pose (run := handler r DemoRequeue.vendored PhaseReconcile 0 cr Demo.live "Reconcile"
                 (Demo.holding cr)).
  destruct (H r DemoRequeue.vendored PhaseReconcile 0 cr Demo.live "Reconcile"
              (Demo.holding cr) run.1 run.2 (trace run.2)
              PhaseReconcile 0 c0 Demo.live DemoRequeue.retry_later)
    as (result & err & Hres).
  - apply surjective_pairing.
  - reflexivity.
  - vm_compute. apply list_elem_of_further, list_elem_of_here.
  - reflexivity.
  - vm_compute in Hres. discriminate.
Qed.

(** C7, amended. In each handler, when the actuator call returns an error:
    the handler's result is what [ReconcileErr] makes of that very error (an
    error where [ReconcileErr] returns one), whether or not the store accepts
    the Error status write; the Error status write, with
    [ReconcileErrCauseOrErr] of the error as its cause, is the one thing done
    after the call; it leaves finalizers and annotations as the actuator saw
    them; and no finalizer removal or annotation clearing is in the run. *)
Theorem actuator_failure r v p ctx cr cluster operationType s res s' evs q x c0 cl e :
  handler r v p ctx cr cluster operationType s = (res, s') ->
  trace s' = trace s ++ evs ->
  EvActuator q x c0 cl ∈ evs ->
  method (actuator r) q x c0 cl = Returns (Some e) ->
  q = p /\
  res = Val (f_ReconcileErr v e) /\
  (exists pre c1 t d,
     evs = pre ++ [EvActuator q x c0 cl;
                   EvWrite (OpError (f_ReconcileErrCauseOrErr v e)) c1] /\
     Meta c1 = Meta c0 /\
     LastOperation_ (Status c1) = Some (mkLastOperation t LastOperationStateError d)) /\
  forallb (fun ev => negb (is_bookkeeping ev)) evs = true.
Proof.
  destruct p; run; cases; intros; trace_inv; elem_inv; same_call;
    (repeat split; try done);
    first [ by eexists [], _, _, _
          | by eexists [_], _, _, _
          | by eexists [_; _], _, _, _ ].
Qed.

Lemma actuator_failure_witness :
  let cr := Demo.object [Demo.FinalizerName] ∅ (Some 1700000000%Z) None in
  let r :=
    mkReconciler (Demo.always (Returns (Some Demo.boom)))
      (Demo.refusing (fun op => if op is OpError _ then true else false)) in
  let v := Demo.vendored Demo.live true None in
  let c0 :=
    setLastOperation
      (mkLastOperation "Delete" LastOperationStateProcessing
         "Deleting the containerruntime") cr in
  let run := handler r v PhaseDelete 0 cr Demo.live "Delete" (Demo.holding cr) in
  run.1 = Val (Result0, Some Demo.boom) /\
  (exists pre c1 t d,
     trace run.2 = pre ++ [EvActuator PhaseDelete 0 c0 Demo.live; EvWrite (OpError Demo.boom) c1] /\
     Meta c1 = Meta c0 /\
     LastOperation_ (Status c1) = Some (mkLastOperation t LastOperationStateError d)) /\
  forallb (fun ev => negb (is_bookkeeping ev)) (trace run.2) = true.
Proof.
  intros cr r v c0 run.
  refine (proj2 (actuator_failure r v PhaseDelete 0 cr Demo.live "Delete"
                   (Demo.holding cr) run.1 run.2 (trace run.2)
                   PhaseDelete 0 c0 Demo.live Demo.boom _ _ _ _)).
  - apply surjective_pairing.
  - reflexivity.
  - vm_compute. apply list_elem_of_further, list_elem_of_here.
  - reflexivity.
Defined.

(** C8. In each of the four handlers, a Processing status write that the
    store refuses ends the handler at once with the store's error: the
    refused write is the last event of the run, the actuator has not been
    called, and the store holds what it held before that write (the object
    as it was, or with the finalizer the pre-step had just added). *)
Theorem processing_failure_aborts r v p ctx cr cluster operationType s res s' evs c e :
  handler r v p ctx cr cluster operationType s = (res, s') ->
  trace s' = trace s ++ evs ->
  EvWrite OpProcessing c ∈ evs ->
  Client.write_fault (client r) OpProcessing c = Some e ->
  res = Val (Result0, Some e) /\
  forallb (fun ev => negb (is_actuator_call ev)) evs = true /\
  ((evs = [EvWrite OpProcessing c] /\ store s' = store s) \/
   (exists c0,
      evs = [EvWrite OpEnsureFinalizer c0; EvWrite OpProcessing c] /\
      store s' = <[key_of c0 := c0]> (store s))).
Proof.
  destruct p; run; cases; intros; trace_inv; elem_inv; eauto 10.
Qed.

Lemma processing_failure_aborts_witness :
  let cr := Demo.object [] ∅ None None in
  let r :=
    mkReconciler (Demo.always Panics)
      (Demo.refusing (fun op => if op is OpProcessing then true else false)) in
  let v := Demo.vendored Demo.live true None in
  let c0 := setFinalizers [Demo.FinalizerName] cr in
  let c :=
    setLastOperation
      (mkLastOperation "Reconcile" LastOperationStateProcessing
         "Reconciling the containerruntime") c0 in
  let run := handler r v PhaseReconcile 0 cr Demo.live "Reconcile" (Demo.holding cr) in
  run.1 = Val (Result0, Some Demo.conflict) /\
  forallb (fun ev => negb (is_actuator_call ev)) (trace run.2) = true /\
  ((trace run.2 = [EvWrite OpProcessing c] /\ store run.2 = store (Demo.holding cr)) \/
   (exists c0,
      trace run.2 = [EvWrite OpEnsureFinalizer c0; EvWrite OpProcessing c] /\
      store run.2 = <[key_of c0 := c0]> (store (Demo.holding cr)))).
Proof.
  intros cr r v c0 c run.
  apply (processing_failure_aborts r v PhaseReconcile 0 cr Demo.live "Reconcile"
           (Demo.holding cr) run.1 run.2 (trace run.2) c Demo.conflict).
  - apply surjective_pairing.
  - reflexivity.
  - vm_compute. apply list_elem_of_further, list_elem_of_here.
  - reflexivity.
Defined.

(** C9. The cleanup action of the Ownership Guard is invoked exactly once,
    as the last thing the invocation does, when the guard was acquired, however
    the invocation ends: with success, with an error or with a panic.  It is
    not invoked at all otherwise, in particular not on the early returns
    before the guard is acquired. *)
Theorem cleanup_exactly_once r v ctx request s res s' evs :
  Reconcile r v ctx request s = (res, s') ->
  trace s' = trace s ++ evs ->
  match acquired r v ctx request s with
  | Some c => cleanups evs = [c] /\ last evs = Some (EvCleanup c)
  | None => cleanups evs = []
  end.
Proof.
  unfold Reconcile, acquired, client_Get, GetOwnerCheckResultAndContext, emit,
    mbind, M_bind, mret, M_ret, operationType_of.
  assert (Hsw : forall c cr cl op s0 res0 s1 evs0,
             Reconcile_switch r v c cr cl op s0 = (res0, s1) ->
             trace s1 = trace s0 ++ evs0 -> cleanups evs0 = []).
  { intros c cr cl op s0 res0 s1 evs0 Hrun Ht.
    destruct (switch_trace r v c cr cl op s0) as (evs1 & Ht1 & Hev).
    rewrite Hrun in Ht1. simpl in Ht1. rewrite Ht in Ht1.
    apply app_inv_head in Ht1 as ->. by apply handler_events_no_cleanup. }
  destruct (Client.get_fault _ _); simpl.
  { destruct (IsNotFound _); intros; by trace_inv. }
  destruct (store s !! request) as [cr|]; simpl;
    [|intros; by trace_inv].
  destruct (f_GetCluster _ _) as [|cluster]; [intros; by trace_inv|].
  destruct (f_IsFailed _ _); [intros; by trace_inv|].
  destruct (Shoot_ cluster) as [shoot|]; [|by eauto].
  destruct (decide _); [by eauto|]. simpl.
  destruct (f_GetOwnerCheckResultAndContext _ _ _ _ _) as [[[ok wctx] cleanup] err].
  destruct ok, err; simpl; try (intros; by trace_inv).
  destruct cleanup as [c|]; simpl.
  - destruct (Reconcile_switch _ _ _ _ _ _ _) as [res0 s1] eqn:Hrun.
    destruct (switch_trace r v wctx cr cluster
                (f_ComputeOperationType v (Meta cr) (LastOperation_ (Status cr)))
                (mkState (store s) (trace s ++ [EvWatchdog (Namespace (Meta cr))
                   (ShootName shoot) ("containerruntime:" +:+ ObjectName_cr v cr)])))
      as (evs1 & Ht1 & Hev).
    rewrite Hrun in Ht1. simpl in Ht1. apply handler_events_no_cleanup in Hev.
    intros [= <- <-]. simpl. rewrite Ht1. intros Ht. trace_inv.
    split.
    + by rewrite cleanups_app, Hev.
    + by rewrite app_comm_cons, last_snoc.
  - intros Hrun Ht.
    destruct (Reconcile_switch _ _ _ _ _ _ _) as [res0 s1] eqn:Hrun0.
    destruct (switch_trace r v wctx cr cluster
                (f_ComputeOperationType v (Meta cr) (LastOperation_ (Status cr)))
                (mkState (store s) (trace s ++ [EvWatchdog (Namespace (Meta cr))
                   (ShootName shoot) ("containerruntime:" +:+ ObjectName_cr v cr)])))
      as (evs1 & Ht1 & Hev).
    rewrite Hrun0 in Ht1. simpl in Ht1. apply handler_events_no_cleanup in Hev.
    simplify_eq. rewrite Ht1 in Ht. trace_inv. by rewrite Hev.
Qed.

Lemma cleanup_exactly_once_witness :
  let cr := Demo.object [] ∅ None None in
  let r := mkReconciler (Demo.always Panics) Demo.healthy in
  let v := Demo.vendored Demo.live true (Some 7) in
  let run := Reconcile r v 0 Demo.request (Demo.holding cr) in
  run.1 = Panic /\ cleanups (trace run.2) = [7] /\ last (trace run.2) = Some (EvCleanup 7).
Proof.
  intros cr r v run.
  pose proof (cleanup_exactly_once r v 0 Demo.request (Demo.holding cr)
                run.1 run.2 (trace run.2) (surjective_pairing run) eq_refl) as H.
  vm_compute in H. vm_compute. by destruct H.
Defined.

(** C10. In the reconcile and restore handlers the finalizer is secured
    before any status is written.  Every object these handlers write carries
    the finalizer token; the object written with state Processing does, and
    at that moment the token is durable: either the fetched object had it, or
    the write that added it came first and was accepted by the store.  When
    the store refuses the write that adds the finalizer, the handler returns
    that error with nothing else done: no status write, store unchanged. *)
Theorem finalizer_before_processing r v p ctx cr cluster operationType s res s' evs :
  p = PhaseReconcile \/ p = PhaseRestore ->
  handler r v p ctx cr cluster operationType s = (res, s') ->
  trace s' = trace s ++ evs ->
  (forall op c, EvWrite op c ∈ evs -> c_FinalizerName v ∈ Finalizers (Meta c)) /\
  (forall c, EvWrite OpProcessing c ∈ evs ->
     (exists t d,
        LastOperation_ (Status c) = Some (mkLastOperation t LastOperationStateProcessing d) /\
        (t = operationType \/ t = c_LastOperationTypeRestore v)) /\
     ((c_FinalizerName v ∈ Finalizers (Meta cr) /\
       exists post, evs = EvWrite OpProcessing c :: post) \/
      (exists c0 post,
         evs = EvWrite OpEnsureFinalizer c0 :: EvWrite OpProcessing c :: post /\
         Client.write_fault (client r) OpEnsureFinalizer c0 = None /\
         c_FinalizerName v ∈ Finalizers (Meta c0)))) /\
  (forall c0 e,
     EvWrite OpEnsureFinalizer c0 ∈ evs ->
     Client.write_fault (client r) OpEnsureFinalizer c0 = Some e ->
     res = Val (Result0, Some e) /\ evs = [EvWrite OpEnsureFinalizer c0] /\
     store s' = store s).
Proof.
  intros [-> | ->]; run; cases; intros; trace_inv;
    repeat match goal with
           | H : ContainsFinalizer _ _ = true |- _ => apply ContainsFinalizer_true in H
           | H : ContainsFinalizer _ _ = false |- _ => clear H
           end;
    (split; [|split]); intros; elem_inv; same_call; simpl;
    try done; try set_solver;
    (split; [by eauto 10|]);
    first [ left; split; [done|]; by eexists
          | right; eexists _, _; split; [done|]; split; [done|]; simpl; set_solver ].
Qed.

Lemma finalizer_before_processing_witness :
  let cr :=
    Demo.object ["kubernetes"] {[ Demo.GardenerOperation := "restore" ]} None
      (Some (mkLastOperation "Restore" LastOperationStateError "")) in
  let r := mkReconciler (Demo.always (Returns None)) Demo.healthy in
  let v := Demo.vendored Demo.live true None in
  let run := handler r v PhaseRestore 0 cr Demo.live "Restore" (Demo.holding cr) in
  run.1 = Val (Result0, None) /\
  (forall op c, EvWrite op c ∈ trace run.2 -> Demo.FinalizerName ∈ Finalizers (Meta c)).
Proof.
  intros cr r v run. split; [by vm_compute|].
  refine (proj1 (finalizer_before_processing r v PhaseRestore 0 cr Demo.live "Restore"
                   (Demo.holding cr) run.1 run.2 (trace run.2) _ _ _)).
  - by right.
  - apply surjective_pairing.
  - reflexivity.
Defined.

(** ** Further properties of the entry point *)

Lemma Reconcile_past_guard r v ctx request s cr cluster ctx' cleanup evs :
  Client.get_fault (client r) request = None ->
  store s !! request = Some cr ->
  f_GetCluster v (Namespace (Meta cr)) = inr cluster ->
  f_IsFailed v cluster = false ->
  guard_passed v ctx cr cluster (operationType_of v cr) ctx' cleanup evs ->
  Reconcile r v ctx request s =
    defer cleanup (Reconcile_switch r v ctx' cr cluster (operationType_of v cr))
      (mkState (store s) (trace s ++ evs)).
Proof.
  intros Hget Hcr Hcluster Hfailed Hguard.
  unfold Reconcile, client_Get, GetOwnerCheckResultAndContext, emit,
    mbind, M_bind, mret, M_ret.
  rewrite Hget, Hcr, Hcluster, Hfailed. fold (operationType_of v cr).
  destruct Hguard as [Hshoot|Hm|shoot wctx cl Hshoot Hm Hw].
  - rewrite Hshoot. simpl. rewrite app_nil_r. by destruct s.
  - simpl. rewrite app_nil_r. destruct (Shoot_ cluster).
    + rewrite decide_True by done. by destruct s.
    + by destruct s.
  - rewrite Hshoot, decide_False by done. by rewrite Hw.
Qed.

(** X1. When fetching the object fails, [Reconcile] stops there with the
    state untouched: a NotFound error (the object is gone) is success, any
    other error is returned as it is. *)
Theorem Reconcile_fetch_fails r v ctx request s err :
  client_Get r request s = (Val (inl err), s) ->
  Reconcile r v ctx request s =
    (Val (Result0, if IsNotFound err then None else Some err), s).
Proof.
  intros Hget. unfold Reconcile, mbind, M_bind, mret, M_ret. rewrite Hget.
  by destruct (IsNotFound err).
Qed.

Lemma Reconcile_fetch_fails_witness :
  let r := mkReconciler (Demo.always Panics) Demo.healthy in
  let v := Demo.vendored Demo.live true None in
  Reconcile r v 0 Demo.request (mkState ∅ []) = (Val (Result0, None), mkState ∅ []) /\
  Reconcile (mkReconciler (Demo.always Panics)
               (Client.mk (fun _ => Some Demo.conflict) (fun _ _ => None)))
    v 0 Demo.request (mkState ∅ [])
  = (Val (Result0, Some Demo.conflict), mkState ∅ []).
Proof.
  intros r v. split.
  - exact (Reconcile_fetch_fails r v 0 Demo.request (mkState ∅ [])
             (NewNotFound Demo.request) eq_refl).
  - exact (Reconcile_fetch_fails
             (mkReconciler (Demo.always Panics)
                (Client.mk (fun _ => Some Demo.conflict) (fun _ _ => None)))
             v 0 Demo.request (mkState ∅ []) Demo.conflict eq_refl).
Defined.

(** X2. When the cluster of the fetched object cannot be resolved,
    [Reconcile] returns that error with the state untouched: the watchdog is
    not consulted and no handler runs. *)
Theorem Reconcile_cluster_unresolved r v ctx request s cr err :
  client_Get r request s = (Val (inr cr), s) ->
  f_GetCluster v (Namespace (Meta cr)) = inl err ->
  Reconcile r v ctx request s = (Val (Result0, Some err), s).
Proof.
  intros Hget Hcluster. unfold Reconcile, mbind, M_bind, mret, M_ret.
  by rewrite Hget, Hcluster.
Qed.

Lemma Reconcile_cluster_unresolved_witness :
  let cr := Demo.object [] ∅ None None in
  let r := mkReconciler (Demo.always Panics) Demo.healthy in
  let v :=
    mkVendored Demo.FinalizerName Demo.GardenerOperation "Migrate" "Restore" "Delete"
      (fun _ => inl Demo.boom) Demo.IsFailed Demo.ComputeOperationType
      (fun _ _ => false) (fun ctx _ _ _ => (true, ctx, None, None))
      (fun namespace name => namespace +:+ "/" +:+ name)
      (fun err => (Result0, Some err)) (fun err => err) in
  Reconcile r v 0 Demo.request (Demo.holding cr)
  = (Val (Result0, Some Demo.boom), Demo.holding cr).
Proof.
  intros cr r v.
  exact (Reconcile_cluster_unresolved r v 0 Demo.request (Demo.holding cr) cr Demo.boom
           eq_refl eq_refl).
Defined.

(** X3. A skipped operation runs no handler and writes nothing, but the
    Ownership Guard comes before the skip test: the watchdog has been
    consulted where it applies, and the cleanup it handed out is still
    invoked. *)
Theorem Reconcile_skipped r v ctx request s cr cluster ctx' cleanup evs :
  Client.get_fault (client r) request = None ->
  store s !! request = Some cr ->
  f_GetCluster v (Namespace (Meta cr)) = inr cluster ->
  f_IsFailed v cluster = false ->
  guard_passed v ctx cr cluster (operationType_of v cr) ctx' cleanup evs ->
  f_ShouldSkipOperation v (operationType_of v cr) cr = true ->
  Reconcile r v ctx request s =
    (Val (Result0, None),
     mkState (store s)
       (trace s ++ evs ++ from_option (fun c => [EvCleanup c]) [] cleanup)).
Proof.
  intros Hget Hcr Hcluster Hfailed Hguard Hskip.
  rewrite (Reconcile_past_guard r v ctx request s cr cluster ctx' cleanup evs) by done.
  unfold defer, Reconcile_switch. rewrite Hskip.
  destruct cleanup; simpl; by rewrite ?app_nil_r, <- ?app_assoc.
Qed.

Lemma Reconcile_skipped_witness :
  let cr :=
    Demo.object [Demo.FinalizerName] ∅ None
      (Some (mkLastOperation "Reconcile" LastOperationStateSucceeded "")) in
  let r := mkReconciler (Demo.always Panics) Demo.healthy in
  let v :=
    mkVendored Demo.FinalizerName Demo.GardenerOperation "Migrate" "Restore" "Delete"
      (fun _ => inr Demo.live) Demo.IsFailed Demo.ComputeOperationType
      (fun _ _ => true) (fun ctx _ _ _ => (true, S ctx, Some 7, None))
      (fun namespace name => namespace +:+ "/" +:+ name)
      (fun err => (Result0, Some err)) (fun err => err) in
  Reconcile r v 0 Demo.request (Demo.holding cr)
  = (Val (Result0, None),
     mkState (store (Demo.holding cr))
       [EvWatchdog "shoot--dev--crazy-botany" "crazy-botany"
          "containerruntime:shoot--dev--crazy-botany/gvisor";
        EvCleanup 7]).
Proof.
  intros cr r v.
  apply (Reconcile_skipped r v 0 Demo.request (Demo.holding cr) cr Demo.live 1 (Some 7)
           [EvWatchdog "shoot--dev--crazy-botany" "crazy-botany"
              "containerruntime:shoot--dev--crazy-botany/gvisor"]);
    try reflexivity.
  apply (guard_acquired v 0 cr Demo.live (operationType_of v cr) (Demo.shoot "Succeeded"));
    [reflexivity | by vm_compute | reflexivity].
Defined.

Lemma handler_context_trace r v p ctx cr cluster operationType s :
  exists evs,
    trace (handler r v p ctx cr cluster operationType s).2 = trace s ++ evs /\
    Forall (in_context ctx cluster) evs.
Proof.
  destruct p; run; cases;
    first
      [ by exists []; rewrite app_nil_r
      | eexists; split; [by rewrite <- ?app_assoc | by repeat constructor] ].
Qed.

Lemma switch_context_trace r v ctx cr cluster operationType s :
  exists evs,
    trace (Reconcile_switch r v ctx cr cluster operationType s).2 = trace s ++ evs /\
    Forall (in_context ctx cluster) evs.
Proof.
  unfold Reconcile_switch.
  destruct (f_ShouldSkipOperation _ _ _); [by exists []; rewrite app_nil_r|].
  destruct (decide _);
    [apply (handler_context_trace r v PhaseMigrate ctx cr cluster operationType)|].
  destruct (DeletionTimestamp _);
    [apply (handler_context_trace r v PhaseDelete ctx cr cluster operationType)|].
  destruct (decide _);
    [apply (handler_context_trace r v PhaseRestore ctx cr cluster operationType)|].
  apply (handler_context_trace r v PhaseReconcile).
Qed.

(** X4. Whatever handler runs, the actuator is called with the context the
    guard produced (the watchdog's context once the guard is acquired, the
    caller's own when it is bypassed) and with the resolved cluster. *)
Theorem actuator_runs_in_guard_context
    r v ctx request s cr cluster ctx' cleanup gevs evs q x c cl :
  Client.get_fault (client r) request = None ->
  store s !! request = Some cr ->
  f_GetCluster v (Namespace (Meta cr)) = inr cluster ->
  f_IsFailed v cluster = false ->
  guard_passed v ctx cr cluster (operationType_of v cr) ctx' cleanup gevs ->
  trace (Reconcile r v ctx request s).2 = trace s ++ evs ->
  EvActuator q x c cl ∈ evs ->
  x = ctx' /\ cl = cluster.
Proof.
  intros Hget Hcr Hcluster Hfailed Hguard Ht Hin.
  rewrite (Reconcile_past_guard r v ctx request s cr cluster ctx' cleanup gevs) in Ht
    by done.
  destruct (switch_context_trace r v ctx' cr cluster (operationType_of v cr)
              (mkState (store s) (trace s ++ gevs))) as (evs1 & Ht1 & Hctx).
  assert (Hevs : evs = gevs ++ evs1 ++ from_option (fun c => [EvCleanup c]) [] cleanup).
  { unfold defer in Ht. destruct cleanup as [c0|]; simpl in *.
    - destruct (Reconcile_switch _ _ _ _ _ _ _) as [res s1]. simpl in *.
      rewrite Ht1, <- !app_assoc in Ht. by apply app_inv_head in Ht.
    - rewrite Ht1, <- !app_assoc in Ht. apply app_inv_head in Ht.
      by rewrite app_nil_r. }
  subst evs. rewrite !elem_of_app in Hin. destruct Hin as [Hin|[Hin|Hin]].
  - destruct Hguard; elem_inv.
  - rewrite Forall_forall in Hctx. exact (Hctx _ Hin).
  - destruct cleanup; simpl in Hin; elem_inv.
Qed.

Lemma actuator_runs_in_guard_context_witness :
  let cr := Demo.object [] ∅ None None in
  let r := mkReconciler (Demo.always (Returns None)) Demo.healthy in
  let v := Demo.vendored Demo.live true (Some 7) in
  let c :=
    Demo.object [Demo.FinalizerName] ∅ None
      (Some (mkLastOperation "Reconcile" LastOperationStateProcessing
               "Reconciling the containerruntime")) in
  EvActuator PhaseReconcile 1 c Demo.live
    ∈ trace (Reconcile r v 0 Demo.request (Demo.holding cr)).2 /\
  (1 = 1 /\ Demo.live = Demo.live).
Proof.
  intros cr r v c.
  assert (Hin : EvActuator PhaseReconcile 1 c Demo.live
                  ∈ trace (Reconcile r v 0 Demo.request (Demo.holding cr)).2).
  { vm_compute. do 3 apply list_elem_of_further. apply list_elem_of_here. }
  split; [exact Hin|].
  refine (actuator_runs_in_guard_context r v 0 Demo.request (Demo.holding cr) cr Demo.live
            1 (Some 7)
            [EvWatchdog "shoot--dev--crazy-botany" "crazy-botany"
               "containerruntime:shoot--dev--crazy-botany/gvisor"]
            (trace (Reconcile r v 0 Demo.request (Demo.holding cr)).2)
            PhaseReconcile 1 c Demo.live _ _ _ _ _ _ Hin); try reflexivity.
  apply (guard_acquired v 0 cr Demo.live (operationType_of v cr) (Demo.shoot "Succeeded"));
    [reflexivity | by vm_compute | reflexivity].
Defined.

(** ** Further properties of the handlers *)

(** X5. A handler calls the actuator at most once, with its own context and
    cluster, and only directly after the store has accepted the Processing
    write of the very object it passes to the actuator. *)
Theorem actuator_after_processing
    r v p ctx cr cluster operationType s res s' evs q x c cl :
  handler r v p ctx cr cluster operationType s = (res, s') ->
  trace s' = trace s ++ evs ->
  EvActuator q x c cl ∈ evs ->
  q = p /\ x = ctx /\ cl = cluster /\
  Client.write_fault (client r) OpProcessing c = None /\
  exists pre post,
    evs = pre ++ EvWrite OpProcessing c :: EvActuator p ctx c cluster :: post /\
    forallb (fun ev => negb (is_actuator_call ev)) pre = true /\
    forallb (fun ev => negb (is_actuator_call ev)) post = true.
Proof.
  destruct p; run; cases; intros; trace_inv; elem_inv;
    (repeat split; try done);
    first [ by eexists [], _ | by eexists [_], _ ].
Qed.

Lemma actuator_after_processing_witness :
  let cr := Demo.object [] ∅ None None in
  let r := mkReconciler (Demo.always (Returns None)) Demo.healthy in
  let v := Demo.vendored Demo.live true None in
  let c :=
    Demo.object [Demo.FinalizerName] ∅ None
      (Some (mkLastOperation "Restore" LastOperationStateProcessing
               "Restoring the containerruntime")) in
  let run := handler r v PhaseRestore 3 cr Demo.live "Restore" (Demo.holding cr) in
  exists pre post,
    trace run.2 = pre ++ EvWrite OpProcessing c :: EvActuator PhaseRestore 3 c Demo.live :: post /\
    forallb (fun ev => negb (is_actuator_call ev)) pre = true /\
    forallb (fun ev => negb (is_actuator_call ev)) post = true.
Proof.
  intros cr r v c run.
  refine (proj2 (proj2 (proj2 (proj2
            (actuator_after_processing r v PhaseRestore 3 cr Demo.live "Restore"
               (Demo.holding cr) run.1 run.2 (trace run.2) PhaseRestore 3 c Demo.live
               _ _ _))))).
  - apply surjective_pairing.
  - reflexivity.
  - vm_compute. do 2 apply list_elem_of_further. apply list_elem_of_here.
Defined.

(** X6. In each handler, a Succeeded status write that the store refuses
    ends the handler with the store's error as it is: that write is the last
    event and none of the bookkeeping (finalizer removal, annotation
    clearing) is attempted. *)
Theorem success_write_refused r v p ctx cr cluster operationType s res s' evs c e :
  handler r v p ctx cr cluster operationType s = (res, s') ->
  trace s' = trace s ++ evs ->
  EvWrite OpSuccess c ∈ evs ->
  Client.write_fault (client r) OpSuccess c = Some e ->
  res = Val (Result0, Some e) /\
  last evs = Some (EvWrite OpSuccess c) /\
  forallb (fun ev => negb (is_bookkeeping ev)) evs = true.
Proof.
  destruct p; run; cases; intros; trace_inv; elem_inv; same_call; done.
Qed.

Lemma success_write_refused_witness :
  let cr := Demo.object [Demo.FinalizerName] ∅ (Some 1700000000%Z) None in
  let r :=
    mkReconciler (Demo.always (Returns None))
      (Demo.refusing (fun op => if op is OpSuccess then true else false)) in
  let v := Demo.vendored Demo.live true None in
  let c :=
    Demo.object [Demo.FinalizerName] ∅ (Some 1700000000%Z)
      (Some (mkLastOperation "Delete" LastOperationStateSucceeded
               "Successfully deleted containerruntime")) in
  let run := handler r v PhaseDelete 0 cr Demo.live "Delete" (Demo.holding cr) in
  run.1 = Val (Result0, Some Demo.conflict) /\
  last (trace run.2) = Some (EvWrite OpSuccess c) /\
  forallb (fun ev => negb (is_bookkeeping ev)) (trace run.2) = true.
Proof.
  intros cr r v c run.
  apply (success_write_refused r v PhaseDelete 0 cr Demo.live "Delete" (Demo.holding cr)
           run.1 run.2 (trace run.2) c Demo.conflict).
  - apply surjective_pairing.
  - reflexivity.
  - vm_compute. do 2 apply list_elem_of_further. apply list_elem_of_here.
  - reflexivity.
Defined.

(** X7. Bookkeeping writes come only where the code puts them: reconcile
    makes none, restore only clears the annotation, delete only removes the
    finalizer, migrate clears all finalizers and then the annotation.  Each
    comes after the store has accepted the Succeeded status, and migrate
    clears the annotation only once the store has accepted the write that
    cleared the finalizers. *)
Theorem bookkeeping_after_success r v p ctx cr cluster operationType s res s' evs op c :
  handler r v p ctx cr cluster operationType s = (res, s') ->
  trace s' = trace s ++ evs ->
  EvWrite op c ∈ evs ->
  is_bookkeeping (EvWrite op c) = true ->
  bookkeeping_of p op = true /\
  (exists c1 pre post,
     evs = pre ++ EvWrite OpSuccess c1 :: post /\
     EvWrite op c ∈ post /\
     Client.write_fault (client r) OpSuccess c1 = None) /\
  (p = PhaseMigrate -> op = OpRemoveAnnotation ->
   exists c2 pre post,
     evs = pre ++ EvWrite OpDeleteAllFinalizers c2 :: post /\
     EvWrite op c ∈ post /\
     Client.write_fault (client r) OpDeleteAllFinalizers c2 = None).
Proof.
  destruct p; run; cases; intros; trace_inv; elem_inv; same_call;
    (split; [done|]); (split; [|try done; intros _ _]);
    first
      [ eexists _, [_], _; split; [reflexivity|]
      | eexists _, [_; _], _; split; [reflexivity|]
      | eexists _, [_; _; _], _; split; [reflexivity|]
      | eexists _, [_; _; _; _], _; split; [reflexivity|] ];
    (split; [by repeat constructor | done]).
Qed.

Lemma bookkeeping_after_success_witness :
  let cr :=
    Demo.object ["kubernetes"; Demo.FinalizerName]
      {[ Demo.GardenerOperation := "migrate" ]} None None in
  let r := mkReconciler (Demo.always (Returns None)) Demo.healthy in
  let v := Demo.vendored Demo.live true None in
  let c :=
    Demo.object [] ∅ None
      (Some (mkLastOperation "Migrate" LastOperationStateSucceeded
               "Successfully migrated containerruntime")) in
  let run := handler r v PhaseMigrate 0 cr Demo.live "Migrate" (Demo.holding cr) in
  bookkeeping_of PhaseMigrate OpRemoveAnnotation = true /\
  (exists c1 pre post,
     trace run.2 = pre ++ EvWrite OpSuccess c1 :: post /\
     EvWrite OpRemoveAnnotation c ∈ post /\
     Client.write_fault (client r) OpSuccess c1 = None) /\
  (PhaseMigrate = PhaseMigrate -> OpRemoveAnnotation = OpRemoveAnnotation ->
   exists c2 pre post,
     trace run.2 = pre ++ EvWrite OpDeleteAllFinalizers c2 :: post /\
     EvWrite OpRemoveAnnotation c ∈ post /\
     Client.write_fault (client r) OpDeleteAllFinalizers c2 = None).
Proof.
  intros cr r v c run.
  apply (bookkeeping_after_success r v PhaseMigrate 0 cr Demo.live "Migrate"
           (Demo.holding cr) run.1 run.2 (trace run.2) OpRemoveAnnotation c).
  - apply surjective_pairing.
  - reflexivity.
  - vm_compute. do 4 apply list_elem_of_further. apply list_elem_of_here.
  - reflexivity.
Defined.

(** X8. In restore, delete and migrate alike, a bookkeeping write that the
    store refuses ends the handler: the result is a new error whose message
    is the step's own text followed by the store's error message, and the
    refused write is the last event. *)
Theorem bookkeeping_write_refused
    r v p ctx cr cluster operationType s res s' evs op c e :
  handler r v p ctx cr cluster operationType s = (res, s') ->
  trace s' = trace s ++ evs ->
  EvWrite op c ∈ evs ->
  is_bookkeeping (EvWrite op c) = true ->
  Client.write_fault (client r) op c = Some e ->
  res = Val (Result0, Some (errorString (bookkeeping_message op +:+ Error e))) /\
  last evs = Some (EvWrite op c).
Proof.
  destruct p; run; cases; intros; trace_inv; elem_inv; same_call; done.
Qed.

Lemma bookkeeping_write_refused_witness :
  let cr := Demo.object ["kubernetes"; Demo.FinalizerName] ∅ (Some 1700000000%Z) None in
  let r :=
    mkReconciler (Demo.always (Returns None))
      (Demo.refusing (fun op => if op is OpRemoveFinalizer then true else false)) in
  let v := Demo.vendored Demo.live true None in
  let c :=
    Demo.object ["kubernetes"] ∅ (Some 1700000000%Z)
      (Some (mkLastOperation "Delete" LastOperationStateSucceeded
               "Successfully deleted containerruntime")) in
  let run := handler r v PhaseDelete 0 cr Demo.live "Delete" (Demo.holding cr) in
  run.1 =
    Val (Result0,
         Some (errorString
                 "error removing finalizer from the containerruntime: the object has been modified")) /\
  last (trace run.2) = Some (EvWrite OpRemoveFinalizer c).
Proof.
  intros cr r v c run.
  apply (bookkeeping_write_refused r v PhaseDelete 0 cr Demo.live "Delete"
           (Demo.holding cr) run.1 run.2 (trace run.2) OpRemoveFinalizer c Demo.conflict).
  - apply surjective_pairing.
  - reflexivity.
  - vm_compute. do 3 apply list_elem_of_further. apply list_elem_of_here.
  - reflexivity.
  - reflexivity.
Defined.

(** X9. No handler recovers from a panic of the actuator: the handler
    panics too, the actuator call is its last event, no Error status is
    written, and the store is left holding the object in state Processing, as
    it was passed to the actuator. *)
Theorem actuator_panics r v p ctx cr cluster operationType s res s' evs q x c cl :
  handler r v p ctx cr cluster operationType s = (res, s') ->
  trace s' = trace s ++ evs ->
  EvActuator q x c cl ∈ evs ->
  method (actuator r) q x c cl = Panics ->
  res = Panic /\
  last evs = Some (EvActuator q x c cl) /\
  store s' !! key_of c = Some c /\
  exists t d,
    LastOperation_ (Status c) = Some (mkLastOperation t LastOperationStateProcessing d).
Proof.
  destruct p; run; cases; intros; trace_inv; elem_inv; same_call;
    (repeat split; try done);
    first [ apply lookup_insert_eq | by eexists _, _ ].
Qed.

Lemma actuator_panics_witness :
  let cr := Demo.object [Demo.FinalizerName] ∅ None None in
  let r := mkReconciler (Demo.always Panics) Demo.healthy in
  let v := Demo.vendored Demo.live true None in
  let c :=
    Demo.object [Demo.FinalizerName] ∅ None
      (Some (mkLastOperation "Reconcile" LastOperationStateProcessing
               "Reconciling the containerruntime")) in
  let run := handler r v PhaseReconcile 0 cr Demo.live "Reconcile" (Demo.holding cr) in
  run.1 = Panic /\
  last (trace run.2) = Some (EvActuator PhaseReconcile 0 c Demo.live) /\
  store run.2 !! key_of c = Some c /\
  exists t d,
    LastOperation_ (Status c) = Some (mkLastOperation t LastOperationStateProcessing d).
Proof.
  intros cr r v c run.
  apply (actuator_panics r v PhaseReconcile 0 cr Demo.live "Reconcile" (Demo.holding cr)
           run.1 run.2 (trace run.2) PhaseReconcile 0 c Demo.live).
  - apply surjective_pairing.
  - reflexivity.
  - vm_compute. apply list_elem_of_further, list_elem_of_here.
  - reflexivity.
Defined.

(** X10. A handler that reports success (a nil error) has had every one of
    its writes accepted by the store and, unless it is the no-op delete, has
    written the Succeeded status.  The one exception is an actuator error
    that [ReconcileErr] itself turns into a nil error. *)
Theorem success_means_all_written r v p ctx cr cluster operationType s res s' evs :
  handler r v p ctx cr cluster operationType s = (Val (res, None), s') ->
  trace s' = trace s ++ evs ->
  ((forall op c, EvWrite op c ∈ evs -> Client.write_fault (client r) op c = None) /\
   ((p = PhaseDelete /\ evs = []) \/ exists c, EvWrite OpSuccess c ∈ evs)) \/
  (exists c e,
     EvActuator p ctx c cluster ∈ evs /\
     method (actuator r) p ctx c cluster = Returns (Some e) /\
     f_ReconcileErr v e = (res, None)).
Proof.
  destruct p; run; cases; intros; trace_inv;
    first
      [ right; eexists _, _; split; [by repeat constructor|]; by split
      | left; split;
        [ intros; elem_inv; by same_call
        | first [ by left | right; eexists; by repeat constructor ] ] ].
Qed.

Lemma success_means_all_written_witness :
  let cr := Demo.object [] ∅ None None in
  let r := mkReconciler (Demo.always (Returns None)) Demo.healthy in
  let v := Demo.vendored Demo.live true None in
  let run := handler r v PhaseReconcile 0 cr Demo.live "Reconcile" (Demo.holding cr) in
  ((forall op c, EvWrite op c ∈ trace run.2 -> Client.write_fault (client r) op c = None) /\
   ((PhaseReconcile = PhaseDelete /\ trace run.2 = []) \/
    exists c, EvWrite OpSuccess c ∈ trace run.2)) \/
  (exists c e,
     EvActuator PhaseReconcile 0 c Demo.live ∈ trace run.2 /\
     method (actuator r) PhaseReconcile 0 c Demo.live = Returns (Some e) /\
     f_ReconcileErr v e = (Result0, None)).
Proof.
  intros cr r v run.
  apply (success_means_all_written r v PhaseReconcile 0 cr Demo.live "Reconcile"
           (Demo.holding cr) Result0 run.2 (trace run.2)).
  - by vm_compute.
  - reflexivity.
Defined.

(** X11. The status a handler writes after the actuator call follows the
    call's result: Succeeded is written only when the actuator returned nil,
    and Error only when it returned an error, with
    [ReconcileErrCauseOrErr] of that error as the cause. *)
Theorem status_follows_actuator r v p ctx cr cluster operationType s res s' evs op c :
  handler r v p ctx cr cluster operationType s = (res, s') ->
  trace s' = trace s ++ evs ->
  EvWrite op c ∈ evs ->
  match op with
  | OpSuccess =>
      exists c0,
        EvActuator p ctx c0 cluster ∈ evs /\
        method (actuator r) p ctx c0 cluster = Returns None
  | OpError cause =>
      exists c0 e,
        EvActuator p ctx c0 cluster ∈ evs /\
        method (actuator r) p ctx c0 cluster = Returns (Some e) /\
        cause = f_ReconcileErrCauseOrErr v e
  | _ => True
  end.
Proof.
  destruct p; run; cases; intros; trace_inv; elem_inv; try done;
    first
      [ eexists; split; [by repeat constructor | done]
      | eexists _, _; split; [by repeat constructor | done] ].
Qed.

Lemma status_follows_actuator_witness :
  let cr := Demo.object [Demo.FinalizerName] ∅ None None in
  let r := mkReconciler (Demo.always (Returns (Some Demo.boom))) Demo.healthy in
  let v := Demo.vendored Demo.live true None in
  let c :=
    Demo.object [Demo.FinalizerName] ∅ None
      (Some (mkLastOperation "Restore" LastOperationStateError
               "Error restoring containerruntime")) in
  let run := handler r v PhaseRestore 0 cr Demo.live "Restore" (Demo.holding cr) in
  exists c0 e,
    EvActuator PhaseRestore 0 c0 Demo.live ∈ trace run.2 /\
    method (actuator r) PhaseRestore 0 c0 Demo.live = Returns (Some e) /\
    Demo.boom = f_ReconcileErrCauseOrErr v e.
Proof.
  intros cr r v c run.
  apply (status_follows_actuator r v PhaseRestore 0 cr Demo.live "Restore"
           (Demo.holding cr) run.1 run.2 (trace run.2) (OpError Demo.boom) c).
  - apply surjective_pairing.
  - reflexivity.
  - vm_compute. do 2 apply list_elem_of_further. apply list_elem_of_here.
Defined.

(** X12. Every status a handler writes carries the handler's operation
    type: restore, delete and migrate report their own constant, while
    reconcile reports the operation type it was called with, whatever the
    classifier computed. *)
Theorem status_reports_phase_type r v p ctx cr cluster operationType s res s' evs op c :
  handler r v p ctx cr cluster operationType s = (res, s') ->
  trace s' = trace s ++ evs ->
  EvWrite op c ∈ evs ->
  is_status_write op = true ->
  exists d,
    LastOperation_ (Status c) =
      Some (mkLastOperation (reported_type v p operationType) (reported_state op) d).
Proof.
  destruct p; run; cases; intros; trace_inv; elem_inv; try done; by eexists.
Qed.

Lemma status_reports_phase_type_witness :
  let cr := Demo.object [] ∅ None None in
  let r := mkReconciler (Demo.always (Returns None)) Demo.healthy in
  let v := Demo.vendored Demo.live true None in
  let c :=
    Demo.object [Demo.FinalizerName] ∅ None
      (Some (mkLastOperation "Create" LastOperationStateSucceeded
               "Successfully reconciled containerruntime")) in
  let run := handler r v PhaseReconcile 0 cr Demo.live "Create" (Demo.holding cr) in
  exists d,
    LastOperation_ (Status c) =
      Some (mkLastOperation "Create" LastOperationStateSucceeded d).
Proof.
  intros cr r v c run.
  apply (status_reports_phase_type r v PhaseReconcile 0 cr Demo.live "Create"
           (Demo.holding cr) run.1 run.2 (trace run.2) OpSuccess c).
  - apply surjective_pairing.
  - reflexivity.
  - vm_compute. do 3 apply list_elem_of_further. apply list_elem_of_here.
  - reflexivity.
Defined.

Lemma handler_result_shape r v p ctx cr cluster operationType s res err s' evs :
  handler r v p ctx cr cluster operationType s = (Val (res, err), s') ->
  trace s' = trace s ++ evs ->
  res = Result0 \/
  exists q x c cl e,
    EvActuator q x c cl ∈ evs /\
    method (actuator r) q x c cl = Returns (Some e) /\
    f_ReconcileErr v e = (res, err).
Proof.
  destruct p; run; cases; intros; trace_inv;
    first
      [ by left
      | right; eexists _, _, _, _, _; split; [by repeat constructor|]; by split ].
Qed.

Lemma switch_result_shape r v ctx cr cluster operationType s res err s' evs :
  Reconcile_switch r v ctx cr cluster operationType s = (Val (res, err), s') ->
  trace s' = trace s ++ evs ->
  res = Result0 \/
  exists q x c cl e,
    EvActuator q x c cl ∈ evs /\
    method (actuator r) q x c cl = Returns (Some e) /\
    f_ReconcileErr v e = (res, err).
Proof.
  unfold Reconcile_switch.
  destruct (f_ShouldSkipOperation _ _ _); [intros [= <- <- <-]; by left|].
  destruct (decide _);
    [apply (handler_result_shape r v PhaseMigrate ctx cr cluster operationType)|].
  destruct (DeletionTimestamp _);
    [apply (handler_result_shape r v PhaseDelete ctx cr cluster operationType)|].
  destruct (decide _);
    [apply (handler_result_shape r v PhaseRestore ctx cr cluster operationType)|].
  apply (handler_result_shape r v PhaseReconcile).
Qed.

(** X13. The reconciler never asks for a requeue of its own: on every path
    of [Reconcile] that returns, the result is the empty [reconcile.Result{}],
    except where it returns what [ReconcileErr] made of an error that an
    actuator call of this very invocation returned. *)
Theorem Reconcile_result_is_empty r v ctx request s res err s' evs :
  Reconcile r v ctx request s = (Val (res, err), s') ->
  trace s' = trace s ++ evs ->
  res = Result0 \/
  exists q x c cl e,
    EvActuator q x c cl ∈ evs /\
    method (actuator r) q x c cl = Returns (Some e) /\
    f_ReconcileErr v e = (res, err).
Proof.
  unfold Reconcile, client_Get, GetOwnerCheckResultAndContext, emit, defer,
    mbind, M_bind, mret, M_ret.
  destruct (Client.get_fault _ _) as [e0|]; simpl.
  { destruct (IsNotFound e0); intros [= <- <- <-]; by left. }
  destruct (store s !! request) as [cr|]; simpl; [|intros [= <- <- <-]; by left].
  destruct (f_GetCluster _ _) as [|cluster]; [intros [= <- <- <-]; by left|].
  destruct (f_IsFailed _ _); [intros [= <- <- <-]; by left|].
  destruct (Shoot_ cluster) as [shoot|]; [|apply switch_result_shape].
  destruct (decide _); [apply switch_result_shape|]. simpl.
  destruct (f_GetOwnerCheckResultAndContext _ _ _ _ _) as [[[ok wctx] cleanup] werr].
  destruct werr; [intros [= <- <- <-]; by left|].
  destruct ok; simpl; [|intros [= <- <- <-]; by left].
  set (s0 := mkState (store s) (trace s ++ _)).
  destruct (switch_trace r v wctx cr cluster
              (f_ComputeOperationType v (Meta cr) (LastOperation_ (Status cr))) s0)
    as (evs1 & Ht1 & _).
  assert (Hlift :
    forall s1, Reconcile_switch r v wctx cr cluster
                 (f_ComputeOperationType v (Meta cr) (LastOperation_ (Status cr))) s0
               = (Val (res, err), s1) ->
      res = Result0 \/
      exists q x c cl e,
        EvActuator q x c cl ∈ evs1 /\
        method (actuator r) q x c cl = Returns (Some e) /\
        f_ReconcileErr v e = (res, err)).
  { intros s1 Hrun. apply (switch_result_shape _ _ _ _ _ _ _ _ _ _ _ Hrun).
    by rewrite Hrun in Ht1. }
  destruct cleanup as [c|].
  - destruct (Reconcile_switch _ _ _ _ _ _ _) as [res0 s1] eqn:Hrun.
    intros [= -> <-] Ht. simpl in Ht, Ht1. rewrite Ht1 in Ht. subst s0. simpl in Ht.
    rewrite <- !app_assoc in Ht. apply app_inv_head in Ht as <-.
    destruct (Hlift s1 eq_refl) as [?|(q & x & c1 & cl & e & Hin & ?)]; [by left|].
    right. exists q, x, c1, cl, e. split; [|done].
    rewrite ?elem_of_app, ?elem_of_cons, ?elem_of_app. tauto.
  - intros Hrun Ht. rewrite Hrun in Ht1. simpl in Ht1. rewrite Ht1 in Ht. subst s0.
    simpl in Ht. rewrite <- !app_assoc in Ht. apply app_inv_head in Ht as <-.
    destruct (Hlift s' Hrun) as [?|(q & x & c1 & cl & e & Hin & ?)]; [by left|].
    right. exists q, x, c1, cl, e. split; [|done].
    rewrite ?elem_of_app, ?elem_of_cons, ?elem_of_app. tauto.
Qed.

Lemma Reconcile_result_is_empty_witness :
  let cr := Demo.object [] ∅ None None in
  let r :=
    mkReconciler (Demo.always (Returns (Some DemoRequeue.retry_later))) Demo.healthy in
  let v := DemoRequeue.vendored in
  let run := Reconcile r v 0 Demo.request (Demo.holding cr) in
  run.1 = Val (mkResult true 30, None) /\
  (mkResult true 30 = Result0 \/
   exists q x c cl e,
     EvActuator q x c cl ∈ trace run.2 /\
     method (actuator r) q x c cl = Returns (Some e) /\
     f_ReconcileErr v e = (mkResult true 30, None)).
Proof.
  intros cr r v run.
  assert (Hrun : run = (Val (mkResult true 30, None), run.2)) by by vm_compute.
  split; [by rewrite Hrun|].
  exact (Reconcile_result_is_empty r v 0 Demo.request (Demo.holding cr)
           (mkResult true 30) None run.2 (trace run.2) Hrun eq_refl).
Defined.

(** X14. Only reconcile and restore ever add the finalizer: delete and
    migrate never issue that write, and where it is issued it is the first
    thing the handler does and is issued once. *)
Theorem finalizer_added_first r v p ctx cr cluster operationType s res s' evs c :
  handler r v p ctx cr cluster operationType s = (res, s') ->
  trace s' = trace s ++ evs ->
  EvWrite OpEnsureFinalizer c ∈ evs ->
  (p = PhaseReconcile \/ p = PhaseRestore) /\
  exists post,
    evs = EvWrite OpEnsureFinalizer c :: post /\
    forall c', EvWrite OpEnsureFinalizer c' ∉ post.
Proof.
  destruct p; run; cases; intros; trace_inv; elem_inv;
    (split; [by eauto|]); eexists; (split; [reflexivity|]);
    intros c' Hin; elem_inv.
Qed.

Lemma finalizer_added_first_witness :
  let cr := Demo.object ["kubernetes"] ∅ None None in
  let r := mkReconciler (Demo.always (Returns None)) Demo.healthy in
  let v := Demo.vendored Demo.live true None in
  let c := Demo.object ["kubernetes"; Demo.FinalizerName] ∅ None None in
  let run := handler r v PhaseReconcile 0 cr Demo.live "Reconcile" (Demo.holding cr) in
  (PhaseReconcile = PhaseReconcile \/ PhaseReconcile = PhaseRestore) /\
  exists post,
    trace run.2 = EvWrite OpEnsureFinalizer c :: post /\
    forall c', EvWrite OpEnsureFinalizer c' ∉ post.
Proof.
  intros cr r v c run.
  apply (finalizer_added_first r v PhaseReconcile 0 cr Demo.live "Reconcile"
           (Demo.holding cr) run.1 run.2 (trace run.2) c).
  - apply surjective_pairing.
  - reflexivity.
  - vm_compute. apply list_elem_of_here.
Defined.
